(** * iSafe-PDF: the compression pipeline of [pdf_compressor.py]

    A shallow embedding of [src/pdf_compressor.py]: the two compressors
    ([compress_smart], [compress_aggressive]), the output path resolver
    ([get_output_path]) and the orchestrator ([main]), written in a small
    state-and-exception monad over an explicit world (the heap of PyMuPDF
    document objects, the file system, standard output).

    PyMuPDF ([fitz]), Pillow ([PIL]) and the [os] string functions are black
    boxes for the script.  Their effect on the world follows the contracts the
    script relies on; whether a call succeeds, and the bytes it produces, are
    left to the oracles of [Externals]. *)

From Stdlib Require Import ZArith QArith Qround String List Lia.
From stdpp Require Import gmap strings list fin_maps pretty.

Open Scope Z_scope.

(** ** Data *)

Abbreviation bytes := (list Byte.byte).

(** [fitz.Rect]: two corners; [width] and [height] are derived, as in PyMuPDF.
    Python floats are idealised as rationals. *)
Record Rect := mkRect { x0 : Q; y0 : Q; x1 : Q; y1 : Q }.

Definition width (r : Rect) : Q := (x1 r - x0 r)%Q.
Definition height (r : Rect) : Q := (y1 r - y0 r)%Q.

(** A page: its rectangle, its content stream (text and vector graphics) and
    the image references [page.get_images(full=True)] lists.  Of each listed
    tuple the script reads the first component only, [img[0]], the xref; the
    model keeps that component. *)
Record Page := mkPage {
  rect : Rect;
  contents : bytes;
  images : list Z
}.

(** A [fitz.Document] object: ordered pages, the table of image streams
    addressed by xref, and whether [close()] was called. *)
Record Document := mkDocument {
  pages : list Page;
  objects : gmap Z bytes;
  is_closed : bool
}.

(** Lines written to standard output, kept structured rather than formatted.
    The duration shown by the success report is left out. *)
Inductive Mode := Smart | Aggressive.

Inductive Line :=
| InfoCreatedDir (output_dir : string)
| ErrorCreateDir (output_dir : string) (e : string)
| ProgressAnalyzing (page_no total : nat)
| ProgressRasterizing (page_no total : nat)
| InfoRecompressed (image_count total_images : nat)
| ErrorNotFound (input_file : string)
| ErrorQuality
| Banner (input_base : string) (mode : Mode) (profile_name : string)
         (quality : Z) (output_dir : string)
| OriginalSize (original_size_mb : Q)
| RunningSmart
| RunningAggressive
| FatalError (e : string)
| ReportSuccess (output_path : string) (compressed_size_mb reduction_percent : Q)
| ReportFailed.

(** The world a run acts on.  [heap] holds the document objects, addressed by
    handle: two variables bound to the same handle are the same object. *)
Record World := mkWorld {
  heap : gmap nat Document;
  files : gmap string bytes;
  dirs : gset string;
  stdout : list Line;
  clock : Q
}.

Definition set_heap (h : gmap nat Document) (w : World) : World :=
  mkWorld h (files w) (dirs w) (stdout w) (clock w).
Definition set_files (f : gmap string bytes) (w : World) : World :=
  mkWorld (heap w) f (dirs w) (stdout w) (clock w).
Definition set_dirs (d : gset string) (w : World) : World :=
  mkWorld (heap w) (files w) d (stdout w) (clock w).
Definition set_stdout (o : list Line) (w : World) : World :=
  mkWorld (heap w) (files w) (dirs w) o (clock w).

(** ** Exceptions and the monad *)

(** The exceptions the script meets.  [OSError] is a subclass of
    [Exception]; [SystemExit], raised by [sys.exit], is not. *)
Inductive exn :=
| Exception (msg : string)
| OSError (msg : string)
| SystemExit (code : Z).

Definition is_Exception (e : exn) : bool :=
  match e with Exception _ | OSError _ => true | SystemExit _ => false end.
Definition is_OSError (e : exn) : bool :=
  match e with OSError _ => true | _ => false end.
Definition exn_str (e : exn) : string :=
  match e with Exception m | OSError m => m | SystemExit _ => EmptyString end.

Inductive result (A : Type) :=
| Return (a : A)
| Raise (e : exn).
Arguments Return {A} a.
Arguments Raise {A} e.

(** A computation runs on a world and leaves a world, whether it returns or
    raises: what was mutated before an exception stays mutated. *)
Definition M (A : Type) : Type := World -> result A * World.

Definition ret {A} (a : A) : M A := fun w => (Return a, w).
Definition raise {A} (e : exn) : M A := fun w => (Raise e, w).
Definition bind {A B} (m : M A) (k : A -> M B) : M B :=
  fun w => match m w with
           | (Return a, w') => k a w'
           | (Raise e, w') => (Raise e, w')
           end.

Declare Scope py_scope.
Delimit Scope py_scope with py.
Notation "'let*' x := c 'in' k" := (bind c (fun x => k))
  (at level 10, x name, c at level 100, k at level 200, only parsing) : py_scope.
Notation "'let*' ' pat := c 'in' k" := (bind c (fun x => match x with pat => k end))
  (at level 10, pat pattern, c at level 100, k at level 200, only parsing) : py_scope.
Notation "c ;; k" := (bind c (fun _ => k))
  (at level 100, k at level 200, only parsing, right associativity) : py_scope.
Open Scope py_scope.

(** [try: body except cls as e: handler e] *)
Definition try_except {A} (cls : exn -> bool) (body : M A) (handler : exn -> M A) : M A :=
  fun w => match body w with
           | (Return a, w') => (Return a, w')
           | (Raise e, w') => if cls e then handler e w' else (Raise e, w')
           end.

(** [try: body finally: fin]: [fin] runs on every outcome of [body]; an
    exception of [body] is raised again after it unless [fin] raises. *)
Definition try_finally {A} (body : M A) (fin : M unit) : M A :=
  fun w => match body w with
           | (r, w') => match fin w' with
                        | (Return _, w'') => (r, w'')
                        | (Raise e, w'') => (Raise e, w'')
                        end
           end.

(** [for x in l: s = body s x], the loop-carried variables threaded as [s]. *)
Fixpoint for_loop {A S} (body : S -> A -> M S) (s : S) (l : list A) : M S :=
  match l with
  | [] => ret s
  | x :: l' => let* s' := body s x in for_loop body s' l'
  end.

Fixpoint enumerate_from {A} (i : nat) (l : list A) : list (nat * A) :=
  match l with
  | [] => []
  | x :: l' => (i, x) :: enumerate_from (S i) l'
  end.
Definition enumerate {A} (l : list A) : list (nat * A) := enumerate_from 0 l.

Definition print (l : Line) : M unit :=
  fun w => (Return tt, set_stdout (stdout w ++ [l]) w).

Definition sys_exit {A} (code : Z) : M A := raise (SystemExit code).

(** ** The external libraries *)

(** What a black-box call can do: deliver a value or raise an [Exception]
    with a message. *)
Inductive outcome (A : Type) :=
| Done (a : A)
| Failed (msg : string).
Arguments Done {A} a.
Arguments Failed {A} msg.

(** [Document.save] either writes the whole file, or raises, possibly after
    having written part of it. *)
Inductive save_outcome :=
| Saved (data : bytes)
| SaveFailed (msg : string) (partial : option bytes).

Record Externals := mkExternals {
  (* Pillow *)
  PILImage : Type;
  Image_open : bytes -> outcome PILImage;
  Image_save_jpeg : PILImage -> Z -> outcome bytes;
  (* PyMuPDF *)
  pdf_parse : bytes -> outcome (list Page * gmap Z bytes);
  pdf_write : Document -> save_outcome;
  update_image_check : Document -> Z -> bytes -> outcome unit;
  pixmap_ppm : Document -> Page -> Z -> outcome bytes;
  (* os *)
  os_makedirs_check : string -> outcome unit;
  os_makedirs_created : string -> gset string -> list string;
  os_path_basename : string -> string;
  os_path_splitext : string -> string * string;
  os_path_join : string -> string -> string;
  str_int : Z -> string
}.

Definition lift_outcome {A} (o : outcome A) : M A :=
  match o with
  | Done a => ret a
  | Failed msg => raise (Exception msg)
  end.

Section Program.

Variable E : Externals.

(** *** PyMuPDF *)

(** Any method of a closed document raises. *)
Definition get_doc (doc : nat) : M Document :=
  fun w => match heap w !! doc with
           | Some d => if is_closed d
                       then (Raise (Exception "document closed"), w)
                       else (Return d, w)
           | None => (Raise (Exception "no such object"), w)
           end.

Definition put_doc (doc : nat) (d : Document) : M unit :=
  fun w => (Return tt, set_heap (<[doc := d]> (heap w)) w).

(** A new document object gets a handle no other object has. *)
Definition new_doc (d : Document) : M nat :=
  fun w => let doc := fresh (dom (heap w)) in
           (Return doc, set_heap (<[doc := d]> (heap w)) w).

(** [fitz.open()]: a new, empty PDF. *)
Definition fitz_open_new : M nat := new_doc (mkDocument [] ∅ false).

(** [fitz.open(path)] *)
Definition fitz_open (path : string) : M nat :=
  fun w => match files w !! path with
           | None => (Raise (Exception "no such file"), w)
           | Some data =>
               match pdf_parse E data with
               | Failed msg => (Raise (Exception msg), w)
               | Done (pgs, objs) => new_doc (mkDocument pgs objs false) w
               end
           end.

(** [list(doc)]: the pages, in order; [len(doc)]. *)
Definition doc_pages (doc : nat) : M (list Page) :=
  let* d := get_doc doc in ret (pages d).
Definition doc_len (doc : nat) : M nat :=
  let* d := get_doc doc in ret (length (pages d)).

(** [doc.extract_image(xref)["image"]]: the stream stored under [xref]. *)
Definition extract_image (doc : nat) (xref : Z) : M bytes :=
  let* d := get_doc doc in
  match objects d !! xref with
  | Some image_bytes => ret image_bytes
  | None => raise (Exception "not an image")
  end.

(** [page.update_image(data, xref=xref)], [page] a page of [doc]: the stream
    under [xref] is replaced; a call that raises changes nothing. *)
Definition update_image (doc : nat) (data : bytes) (xref : Z) : M unit :=
  let* d := get_doc doc in
  lift_outcome (update_image_check E d xref data) ;;
  put_doc doc (mkDocument (pages d) (<[xref := data]> (objects d)) (is_closed d)).

(** [page.get_pixmap(dpi=dpi).tobytes("ppm")], [page] a page of [doc]. *)
Definition get_pixmap_ppm (doc : nat) (page : Page) (dpi : Z) : M bytes :=
  let* d := get_doc doc in
  lift_outcome (pixmap_ppm E d page dpi).

(** [doc.new_page(width=width, height=height)]: appends an empty page with
    rectangle (0, 0, width, height) and returns it (its index). *)
Definition new_page (doc : nat) (width height : Q) : M nat :=
  let* d := get_doc doc in
  put_doc doc (mkDocument (pages d ++ [mkPage (mkRect 0 0 width height) [] []])
                          (objects d) (is_closed d)) ;;
  ret (length (pages d)).

(** [page.insert_image(rect, stream=stream)], [page] the page [pno] of [doc]:
    the stream is stored under a new xref which the page then references;
    the page rectangle is not changed. *)
Definition insert_image (doc : nat) (pno : nat) (r : Rect) (stream : bytes) : M unit :=
  let* d := get_doc doc in
  match pages d !! pno with
  | None => raise (Exception "page not in document")
  | Some pg =>
      let xref := fresh (dom (objects d)) in
      put_doc doc (mkDocument
                     (<[pno := mkPage (rect pg) (contents pg) (images pg ++ [xref])]> (pages d))
                     (<[xref := stream]> (objects d)) (is_closed d))
  end.

(** [doc.save(path, garbage=4, deflate=True, clean=True)] *)
Definition save (doc : nat) (path : string) : M unit :=
  let* d := get_doc doc in
  fun w => match pdf_write E d with
           | Saved data => (Return tt, set_files (<[path := data]> (files w)) w)
           | SaveFailed msg None => (Raise (Exception msg), w)
           | SaveFailed msg (Some data) =>
               (Raise (Exception msg), set_files (<[path := data]> (files w)) w)
           end.

(** [doc.close()] *)
Definition close (doc : nat) : M unit :=
  fun w => match heap w !! doc with
           | Some d => (Return tt, set_heap (<[doc := mkDocument (pages d) (objects d) true]> (heap w)) w)
           | None => (Raise (Exception "no such object"), w)
           end.

(** [bool(doc)]: [fitz.Document] defines [__len__] and no [__bool__], so a
    document is true when it has at least one page. *)
Definition doc_truthy (doc : nat) : M bool :=
  let* n := doc_len doc in ret (negb (Nat.eqb n 0)).

(** *** Pillow *)

(** [Image.open(io.BytesIO(data))] *)
Definition PIL_Image_open (data : bytes) : M (PILImage E) :=
  lift_outcome (Image_open E data).

(** [buf = io.BytesIO(); img.save(buf, format="JPEG", quality=quality,
    optimize=True); buf.seek(0)]: the content of [buf]. *)
Definition PIL_save_jpeg (img : PILImage E) (quality : Z) : M bytes :=
  lift_outcome (Image_save_jpeg E img quality).

(** *** os, time *)

Definition os_path_isfile (path : string) : M bool :=
  fun w => (Return (bool_decide (is_Some (files w !! path))), w).

Definition os_path_exists (path : string) : M bool :=
  fun w => (Return (bool_decide (is_Some (files w !! path)) || bool_decide (path ∈ dirs w)), w).

(** [os.makedirs(path)]: the missing directories on the way to [path] are
    created, then [path] itself.  [os_makedirs_created] names the
    directories made on the way, given those that exist; a call that raises
    leaves them behind. *)
Definition os_makedirs (path : string) : M unit :=
  fun w =>
    let made := list_to_set (os_makedirs_created E path (dirs w)) ∪ dirs w in
    match os_makedirs_check E path with
    | Done _ => (Return tt, set_dirs ({[path]} ∪ made) w)
    | Failed msg => (Raise (OSError msg), set_dirs made w)
    end.

Definition os_path_getsize (path : string) : M Z :=
  fun w => match files w !! path with
           | Some data => (Return (Z.of_nat (length data)), w)
           | None => (Raise (OSError "no such file"), w)
           end.

Definition os_remove (path : string) : M unit :=
  fun w => match files w !! path with
           | Some _ => (Return tt, set_files (delete path (files w)) w)
           | None => (Raise (OSError "no such file"), w)
           end.

Definition time_time : M Q := fun w => (Return (clock w), w).

(** [int(x)] on a float: the integer part, rounded toward zero. *)
Definition int_float (x : Q) : Z := Z.quot (Qnum x) (Zpos (Qden x)).

(** ** Configuration *)

(** The keys of [COMPRESSION_PROFILES]; argparse's [choices] admits no other
    value of [--profile]. *)
Inductive Profile := low | medium | high | best.

Definition COMPRESSION_PROFILES (p : Profile) : Z :=
  match p with
  | low => 20
  | medium => 40
  | high => 60
  | best => 80
  end.

Definition profile_key (p : Profile) : string :=
  match p with
  | low => "low"
  | medium => "medium"
  | high => "high"
  | best => "best"
  end.

Definition DEFAULT_PROFILE : Profile := medium.
Definition DEFAULT_OUTPUT_DIR : string := "compressed_pdfs".

(** The namespace [parser.parse_args()] returns.  [quality] is [None] when
    [--quality] is absent and the parsed integer otherwise. *)
Record Args := mkArgs {
  input_file : string;
  mode : Mode;
  profile : Profile;
  quality : option Z;
  output_dir : string
}.

(** ** Core functions *)

(** [get_output_path], lines 36-54.  [ok] is false when the [except OSError]
    branch returned [None]. *)
Definition get_output_path (input_path output_dir profile_name : string)
    (quality_val : Z) : M (option string) :=
  let* there := os_path_exists output_dir in
  let* ok :=
    (if negb there then
       try_except is_OSError
         (os_makedirs output_dir ;;
          print (InfoCreatedDir output_dir) ;;
          ret true)
         (fun e => print (ErrorCreateDir output_dir (exn_str e)) ;; ret false)
     else ret true) in
  if negb ok then ret None
  else
    let base_name := os_path_basename E input_path in
    let '(file_name, file_ext) := os_path_splitext E base_name in
    let* now := time_time in
    let timestamp := int_float now in
    let new_filename :=
      (file_name ++ "__" ++ profile_name ++ "_q" ++ str_int E quality_val
                 ++ "_" ++ str_int E timestamp ++ file_ext)%string in
    ret (Some (os_path_join E output_dir new_filename)).

(** The body of the [try] of [compress_smart], lines 82-92, up to the
    replacement of the image [xref] of [doc]. *)
Definition recompress_image (doc : nat) (quality : Z) (xref : Z) : M unit :=
  let* image_bytes := extract_image doc xref in
  let* pil_img := PIL_Image_open image_bytes in
  let* img_buffer := PIL_save_jpeg pil_img quality in
  update_image doc img_buffer xref.

(** One pass of the inner loop of [compress_smart], lines 77-96, for the
    image reference [img] of a page of [doc].  The loop-carried variables are
    [(image_count, total_images)]; [continue] leaves them as they are. *)
Definition smart_image (doc : nat) (quality : Z) (counters : nat * nat)
    (item : nat * Z) : M (nat * nat) :=
  let '(image_count, total_images) := counters in
  let '(img_index, img) := item in
  let total_images := (total_images + 1)%nat in
  let xref := img in
  try_except is_Exception
    (recompress_image doc quality xref ;;
     ret ((image_count + 1)%nat, total_images))
    (fun _ => ret (image_count, total_images)).

(** One pass of the outer loop of [compress_smart], lines 73-96. *)
Definition smart_page (doc : nat) (quality : Z) (counters : nat * nat)
    (item : nat * Page) : M (nat * nat) :=
  let '(page_num, page) := item in
  let* n := doc_len doc in
  print (ProgressAnalyzing (page_num + 1) n) ;;
  for_loop (smart_image doc quality) counters (enumerate (images page)).

(** [compress_smart], lines 56-99.  [update_image] leaves the page list of
    [doc] as it is, so the loop runs over the pages as they are on entry. *)
Definition compress_smart (doc : nat) (quality : Z) : M nat :=
  let image_count := 0%nat in
  let total_images := 0%nat in
  let* pgs := doc_pages doc in
  let* '(image_count, total_images) :=
    for_loop (smart_page doc quality) (image_count, total_images) (enumerate pgs) in
  print (InfoRecompressed image_count total_images) ;;
  ret image_count.

(** Lines 119-125: the page of [doc] as JPEG bytes. *)
Definition rasterize_page (doc : nat) (page : Page) (quality : Z) : M bytes :=
  let* pix := get_pixmap_ppm doc page 150 in
  let* img := PIL_Image_open pix in
  PIL_save_jpeg img quality.

(** One pass of the loop of [compress_aggressive], lines 115-129. *)
Definition aggressive_page (doc output_doc : nat) (quality : Z) (_ : unit)
    (item : nat * Page) : M unit :=
  let '(page_num, page) := item in
  let* n := doc_len doc in
  print (ProgressRasterizing (page_num + 1) n) ;;
  let* img_buffer := rasterize_page doc page quality in
  let* new_page := new_page output_doc (width (rect page)) (height (rect page)) in
  insert_image output_doc new_page (rect page) img_buffer.

(** [compress_aggressive], lines 101-131. *)
Definition compress_aggressive (doc : nat) (quality : Z) : M nat :=
  let* output_doc := fitz_open_new in
  let* pgs := doc_pages doc in
  for_loop (aggressive_page doc output_doc quality) tt (enumerate pgs) ;;
  ret output_doc.

(** ** Main execution *)

(** Truth value of an [int]: only [0] is false. *)
Definition int_bool (n : Z) : bool := negb (n =? 0).

(** Lines 187-195: the quality and the profile name of the run.
    [if args.quality:] takes the [else] branch when [args.quality] is [None]
    and when it is false as an integer. *)
Definition select_quality (args : Args) : M (Z * string) :=
  let from_profile :=
    ret (COMPRESSION_PROFILES (profile args), profile_key (profile args)) in
  match quality args with
  | Some q =>
      if int_bool q then
        (if negb ((1 <=? q) && (q <=? 95))
         then print ErrorQuality ;; sys_exit 1
         else ret tt) ;;
        ret (q, "custom"%string)
      else from_profile
  | None => from_profile
  end.

(** Line 242. *)
Definition reduction_percent (compressed_size_mb original_size_mb : Q) : Q :=
  if Qlt_le_dec 0 original_size_mb
  then ((1 - compressed_size_mb / original_size_mb) * 100)%Q
  else 0%Q.

Definition size_mb (size : Z) : Q := (inject_Z size / inject_Z (1024 * 1024))%Q.

(** The body of the [try] of lines 216-231 after [doc] is bound. *)
Definition main_process (args : Args) (doc : nat) (quality_val : Z)
    (output_path : string) : M unit :=
  match mode args with
  | Smart =>
      print RunningSmart ;;
      compress_smart doc quality_val ;;
      save doc output_path
  | Aggressive =>
      print RunningAggressive ;;
      let* output_doc := compress_aggressive doc quality_val in
      save output_doc output_path ;;
      close output_doc
  end.

(** Lines 215-237: [try ... except Exception ... finally], returning
    [success].  [doc] is assigned by the first statement of the [try]: when
    [fitz.open] raises, [doc] is still [None] and [finally] closes nothing. *)
Definition main_try (args : Args) (quality_val : Z) (output_path : string) : M bool :=
  let* opened :=
    try_except is_Exception
      (let* doc := fitz_open (input_file args) in ret (inl doc))
      (fun e => ret (inr e)) in
  match opened with
  | inr e => print (FatalError (exn_str e)) ;; ret false
  | inl doc =>
      try_finally
        (try_except is_Exception
           (main_process args doc quality_val output_path ;; ret true)
           (fun e => print (FatalError (exn_str e)) ;; ret false))
        (let* b := doc_truthy doc in if b then close doc else ret tt)
  end.

(** Lines 239-257. *)
Definition main_report (success : bool) (output_path : string)
    (original_size_mb : Q) : M unit :=
  let* there := os_path_exists output_path in
  if success && there then
    let* size := os_path_getsize output_path in
    let compressed_size_mb := size_mb size in
    print (ReportSuccess output_path compressed_size_mb
             (reduction_percent compressed_size_mb original_size_mb))
  else
    print ReportFailed ;;
    let* there := os_path_exists output_path in
    if there then os_remove output_path else ret tt.

(** [main], lines 135-257. *)
Definition main (args : Args) : M unit :=
  let* isfile := os_path_isfile (input_file args) in
  (if negb isfile
   then print (ErrorNotFound (input_file args)) ;; sys_exit 1
   else ret tt) ;;
  let* '(quality_val, profile_name) := select_quality args in
  print (Banner (os_path_basename E (input_file args)) (mode args) profile_name
           quality_val (output_dir args)) ;;
  let* output_path :=
    get_output_path (input_file args) (output_dir args) profile_name quality_val in
  match output_path with
  | None | Some EmptyString => sys_exit 1
  | Some output_path =>
      let* size := os_path_getsize (input_file args) in
      let original_size_mb := size_mb size in
      print (OriginalSize original_size_mb) ;;
      let* success := main_try args quality_val output_path in
      main_report success output_path original_size_mb
  end.

(** The process: exit status 0 when [main] returns, the argument of
    [sys.exit] when it was called, 1 when an exception reaches the top. *)
Definition run (args : Args) (w : World) : Z * World :=
  match main args w with
  | (Return _, w') => (0, w')
  | (Raise (SystemExit code), w') => (code, w')
  | (Raise _, w') => (1, w')
  end.

End Program.

(** ** What the black boxes decide *)

Section Oracles.

Variable E : Externals.

(** The stream that replaces the image [xref] of [d] when extraction,
    re-encoding and replacement all succeed; the error message otherwise. *)
Definition recompressed (d : Document) (quality : Z) (xref : Z) : outcome bytes :=
  match objects d !! xref with
  | None => Failed "not an image"
  | Some image_bytes =>
      match Image_open E image_bytes with
      | Failed msg => Failed msg
      | Done pil_img =>
          match Image_save_jpeg E pil_img quality with
          | Failed msg => Failed msg
          | Done data =>
              match update_image_check E d xref data with
              | Failed msg => Failed msg
              | Done _ => Done data
              end
          end
      end
  end.

Definition replace_stream (d : Document) (xref : Z) (data : bytes) : Document :=
  mkDocument (pages d) (<[xref := data]> (objects d)) (is_closed d).

(** The images counted as recompressed when the references [xrefs] are
    visited in order, and the document left behind. *)
Fixpoint smart_pass (quality : Z) (xrefs : list Z) (d : Document) : nat * Document :=
  match xrefs with
  | [] => (0%nat, d)
  | xref :: rest =>
      match recompressed d quality xref with
      | Done data =>
          let '(n, d') := smart_pass quality rest (replace_stream d xref data) in
          (S n, d')
      | Failed _ => smart_pass quality rest d
      end
  end.

(** All image references of a document, page after page. *)
Definition image_refs (d : Document) : list Z := concat (map images (pages d)).

(** The JPEG bytes of a page of [d] when rendering and encoding succeed. *)
Definition rasterized (d : Document) (quality : Z) (page : Page) : outcome bytes :=
  match pixmap_ppm E d page 150 with
  | Failed msg => Failed msg
  | Done pix =>
      match Image_open E pix with
      | Failed msg => Failed msg
      | Done img => Image_save_jpeg E img quality
      end
  end.

Definition is_Done {A} (o : outcome A) : Prop :=
  match o with Done _ => True | Failed _ => False end.

(** The output document after one more page: a new last page of the size of
    [page], showing [stream], which is stored under a new xref. *)
Definition append_raster (dout : Document) (page : Page) (stream : bytes) : Document :=
  let xref := fresh (dom (objects dout)) in
  mkDocument
    (pages dout ++ [mkPage (mkRect 0 0 (width (rect page)) (height (rect page))) [] [xref]])
    (<[xref := stream]> (objects dout))
    (is_closed dout).

(** The output document after the pages [pgs] of [d], or the message of the
    first page that does not render or encode. *)
Fixpoint aggressive_pass (d : Document) (quality : Z) (pgs : list Page)
    (dout : Document) : outcome Document :=
  match pgs with
  | [] => Done dout
  | page :: rest =>
      match rasterized d quality page with
      | Done stream => aggressive_pass d quality rest (append_raster dout page stream)
      | Failed msg => Failed msg
      end
  end.

End Oracles.

(** ** A small instance of the external libraries

    Concrete oracles and a concrete world, on which the program runs by
    computation. *)

Module Demo.

Import Byte.

(** A stream decodes unless it is empty; encoding keeps its first byte. *)
Definition demo_open (data : bytes) : outcome bytes :=
  match data with
  | [] => Failed "cannot identify image file"
  | _ => Done data
  end.

Definition demo_save_jpeg (img : bytes) (quality : Z) : outcome bytes :=
  Done (firstn 1 img).

(** The stream under xref 9 cannot be replaced. *)
Definition demo_update_check (d : Document) (xref : Z) (data : bytes) : outcome unit :=
  if xref =? 9 then Failed "xref is not an image" else Done tt.

(** [os.makedirs("deep/out")] makes "deep" on the way. *)
Definition demo_created (path : string) (existing : gset string) : list string :=
  if String.eqb path "deep/out" then ["deep"%string] else [].

(** A page whose content stream is empty cannot be rendered. *)
Definition demo_pixmap (d : Document) (pg : Page) (dpi : Z) : outcome bytes :=
  match contents pg with
  | [] => Failed "cannot render page"
  | c => Done (x50 :: c)
  end.

Definition page_a : Page := mkPage (mkRect 0 0 595 842) [x41] [5; 6].
Definition page_b : Page := mkPage (mkRect 10 20 310 420) [x42] [7; 9].
Definition page_c : Page := mkPage (mkRect 0 0 (1191 # 2) 842) [x43] [].
Definition page_blank : Page := mkPage (mkRect 0 0 595 842) [] [].

(** Four image streams; the one under xref 6 does not decode. *)
Definition sample_objects : gmap Z bytes :=
  <[5 := [x10; x11; x12]]> (<[6 := []]> (<[7 := [x20; x21]]> (<[9 := [x30]]> ∅))).

Definition sample_doc : Document := mkDocument [page_a; page_b] sample_objects false.

(** The first byte of a file selects the document it holds. *)
Definition demo_parse (data : bytes) : outcome (list Page * gmap Z bytes) :=
  match data with
  | x01 :: _ => Done ([page_a; page_b], sample_objects)
  | x02 :: _ => Done ([], ∅)
  | x03 :: _ => Done ([page_a; page_b; page_c], sample_objects)
  | x04 :: _ => Done ([page_a; page_blank], sample_objects)
  | _ => Failed "cannot open broken document"
  end.

(** Saving raises for a document without pages, and, after the header was
    written, for one of more than two pages. *)
Definition demo_write (d : Document) : save_outcome :=
  match pages d with
  | [] => SaveFailed "cannot save with zero pages" None
  | _ :: _ :: _ :: _ => SaveFailed "No space left on device" (Some [x25])
  | pgs => Saved (x25 :: concat (map contents pgs)
                      ++ concat (map snd (map_to_list (objects d))))
  end.

Definition demo : Externals := {|
  PILImage := bytes;
  Image_open := demo_open;
  Image_save_jpeg := demo_save_jpeg;
  pdf_parse := demo_parse;
  pdf_write := demo_write;
  update_image_check := demo_update_check;
  pixmap_ppm := demo_pixmap;
  os_makedirs_check := fun _ => Done tt;
  os_makedirs_created := demo_created;
  os_path_basename := fun p => p;
  os_path_splitext := fun p => (p, ".pdf"%string);
  os_path_join := fun d f => (d ++ "/" ++ f)%string;
  str_int := pretty
|}.

Definition demo_files : gmap string bytes :=
  <["sample"%string := [x01; x00; x00; x00; x00; x00; x00; x00]]>
    (<["empty"%string := [x02]]>
       (<["large"%string := [x03; x00; x00; x00]]>
          (<["blank"%string := [x04; x00; x00; x00]]> ∅))).

Definition world0 : World := mkWorld ∅ demo_files ∅ [] 1700000000.

(** A world in which the sample document is open under handle 0. *)
Definition world1 : World := mkWorld {[ 0%nat := sample_doc ]} demo_files ∅ [] 1700000000.

(** A world in which a document with a page that cannot be rendered is open
    under handle 0. *)
Definition blank_doc : Document := mkDocument [page_a; page_blank] sample_objects false.
Definition world_blank : World := mkWorld {[ 0%nat := blank_doc ]} demo_files ∅ [] 1700000000.

Definition args_aggressive : Args := mkArgs "sample" Aggressive medium None "out".
Definition args_quality_zero : Args := mkArgs "sample" Smart medium (Some 0) "out".
Definition args_disk_full : Args := mkArgs "large" Aggressive medium None "out".
Definition args_blank_page : Args := mkArgs "blank" Aggressive medium None "out".

(** A world whose only file is not a PDF. *)
Definition world_junk : World :=
  mkWorld ∅ {[ "junk"%string := [x00; x01] ]} ∅ [] 1700000000.
Definition args_junk : Args := mkArgs "junk" Smart medium None "out".

(** The same libraries on a system where no directory can be created. *)
Definition demo_readonly : Externals := {|
  PILImage := bytes;
  Image_open := demo_open;
  Image_save_jpeg := demo_save_jpeg;
  pdf_parse := demo_parse;
  pdf_write := demo_write;
  update_image_check := demo_update_check;
  pixmap_ppm := demo_pixmap;
  os_makedirs_check := fun _ => Failed "Permission denied";
  os_makedirs_created := demo_created;
  os_path_basename := fun p => p;
  os_path_splitext := fun p => (p, ".pdf"%string);
  os_path_join := fun d f => (d ++ "/" ++ f)%string;
  str_int := pretty
|}.

(** The same libraries when [update_image] raises on every call. *)
Definition demo_no_update : Externals := {|
  PILImage := bytes;
  Image_open := demo_open;
  Image_save_jpeg := demo_save_jpeg;
  pdf_parse := demo_parse;
  pdf_write := demo_write;
  update_image_check := fun _ _ _ => Failed "no attribute update_image";
  pixmap_ppm := demo_pixmap;
  os_makedirs_check := fun _ => Done tt;
  os_makedirs_created := demo_created;
  os_path_basename := fun p => p;
  os_path_splitext := fun p => (p, ".pdf"%string);
  os_path_join := fun d f => (d ++ "/" ++ f)%string;
  str_int := pretty
|}.

(** A document of text pages only, open under handle 0. *)
Definition text_doc : Document := mkDocument [page_c; page_c] ∅ false.
Definition world_text : World :=
  mkWorld {[ 0%nat := text_doc ]} demo_files ∅ [] 1700000000.

Definition args_missing : Args := mkArgs "nowhere" Smart medium None "out".
Definition args_deep : Args := mkArgs "sample" Smart medium None "deep/out".
Definition args_quality_high : Args := mkArgs "sample" Smart low (Some 96) "out".
Definition args_quality_custom : Args := mkArgs "sample" Smart low (Some 75) "out".

(** The output document aggressive mode builds from the sample document. *)
Definition sample_raster : Document :=
  Eval vm_compute in
    match aggressive_pass demo sample_doc 40 (pages sample_doc) (mkDocument [] ∅ false) with
    | Done dout => dout
    | Failed _ => mkDocument [] ∅ false
    end.

(** The clock of [world0] half a second later. *)
Definition world0_later : World := mkWorld ∅ demo_files ∅ [] (3400000001 # 2).

End Demo.

(** ** Derived notions used in the statements *)

(** The path [get_output_path] builds, lines 48-54, as a function of the
    time at which it is called. *)
Definition output_name (E : Externals) (input_path output_dir profile_name : string)
    (quality_val : Z) (now : Q) : string :=
  let '(file_name, file_ext) := os_path_splitext E (os_path_basename E input_path) in
  os_path_join E output_dir
    (file_name ++ "__" ++ profile_name ++ "_q" ++ str_int E quality_val
               ++ "_" ++ str_int E (int_float now) ++ file_ext)%string.

(** [w'] holds the files of [w], except possibly under [path]. *)
Definition same_files_but (path : string) (w w' : World) : Prop :=
  forall p : string, p <> path -> files w' !! p = files w !! p.

(** A computation that raises raises an [Exception]. *)
Definition raises_exceptions_only {A} (r : result A) : Prop :=
  match r with
  | Return _ => True
  | Raise e => is_Exception e = true
  end.

(** The files and directories of a world, and computations that leave them
    as they are on every outcome. *)
Definition file_system (w : World) : gmap string bytes * gset string :=
  (files w, dirs w).

Definition keeps_file_system {A} (m : M A) : Prop :=
  forall w : World, file_system (m w).2 = file_system w.

(** * The build script, [build.py]

    The script installs the dependencies with pip and bundles
    [pdf_compressor.py] with PyInstaller.  Both are child processes: what a
    child process answers, and which paths exist after it, is left to the
    oracle [check_call]; the world records the command lines in the order in
    which they were run. *)

Module Build.

Definition SCRIPT_TO_BUNDLE : string := "pdf_compressor.py".
Definition EXECUTABLE_NAME : string := "pdf_compressor".
Definition ICON_FILE : string := "icon.ico".

(** The outcomes of [subprocess.check_call]: it returns, or raises
    [CalledProcessError] (non-zero exit status) or [FileNotFoundError] (no
    such program). *)
Inductive call_result :=
| CallOk
| CalledProcessError (returncode : Z)
| FileNotFoundError.

Inductive BuildLine :=
| BuildStarted
| CheckingDependencies
| Installing (package : string)
| IsInstalled (package : string)
| FailedToInstall (package : string)
| AllSatisfied
| CreatingExecutable
| ScriptNotFound
| UsingIcon
| NoIconFound
| RunningCommand (command : list string)
| BuildSuccessful (cwd : string)
| BuildFailedStatus (returncode : Z)
| BuildFailedNoPyInstaller
| BuildFinished.

Record BuildWorld := mkBuildWorld {
  paths : gset string;
  calls : list (list string);
  printed : list BuildLine
}.

Record BuildExternals := mkBuildExternals {
  sys_executable : string;
  os_getcwd : string;
  check_call : list string -> gset string -> call_result * gset string
}.

(** What leaves a function of the script other than a returned value. *)
Inductive build_exn :=
| RaisedFileNotFoundError
| RaisedSystemExit (code : Z).

Inductive build_result (A : Type) :=
| Returned (a : A)
| Raised (e : build_exn).
Arguments Returned {A} a.
Arguments Raised {A} e.

Definition build_print (l : BuildLine) (w : BuildWorld) : BuildWorld :=
  mkBuildWorld (paths w) (calls w) (printed w ++ [l]).

Section Script.

Variable B : BuildExternals.

(** [subprocess.check_call(command)] *)
Definition subprocess_check_call (command : list string) (w : BuildWorld)
    : call_result * BuildWorld :=
  let '(res, paths') := check_call B command (paths w) in
  (res, mkBuildWorld paths' (calls w ++ [command]) (printed w)).

Definition os_path_exists (path : string) (w : BuildWorld) : bool :=
  bool_decide (path ∈ paths w).

Definition pip_install (package : string) : list string :=
  [sys_executable B; "-m"; "pip"; "install"; package]%string.

(** The loop of [install_dependencies], lines 36-50: [return False] in
    the [except] branch leaves the loop and the function; after the last
    package lines 49-50 run.  A [FileNotFoundError] is not caught. *)
Fixpoint install_packages (packages : list string) (w : BuildWorld)
    : build_result bool * BuildWorld :=
  match packages with
  | [] => (Returned true, build_print AllSatisfied w)
  | package :: rest =>
      match subprocess_check_call (pip_install package)
              (build_print (Installing package) w) with
      | (CallOk, w') => install_packages rest (build_print (IsInstalled package) w')
      | (CalledProcessError _, w') =>
          (Returned false, build_print (FailedToInstall package) w')
      | (FileNotFoundError, w') => (Raised RaisedFileNotFoundError, w')
      end
  end.

Definition required_packages : list string := ["PyMuPDF"; "Pillow"; "pyinstaller"]%string.

(** [install_dependencies], lines 30-50. *)
Definition install_dependencies (w : BuildWorld) : build_result bool * BuildWorld :=
  install_packages required_packages (build_print CheckingDependencies w).

(** The command of lines 63-75. *)
Definition pyinstaller_command (with_icon : bool) : list string :=
  app ["pyinstaller"; "--name"; EXECUTABLE_NAME; "--onefile"; "--windowed"; "--clean";
       SCRIPT_TO_BUNDLE]%string
      (if with_icon then ["--icon"; ICON_FILE]%string else []).

(** [create_executable], lines 52-93. *)
Definition create_executable (w : BuildWorld) : BuildWorld :=
  let w := build_print CreatingExecutable w in
  if negb (os_path_exists SCRIPT_TO_BUNDLE w) then
    build_print ScriptNotFound w
  else
    let with_icon := os_path_exists ICON_FILE w in
    let command := pyinstaller_command with_icon in
    let w := build_print (if with_icon then UsingIcon else NoIconFound) w in
    let w := build_print (RunningCommand command) w in
    match subprocess_check_call command w with
    | (CallOk, w') => build_print (BuildSuccessful (os_getcwd B)) w'
    | (CalledProcessError returncode, w') => build_print (BuildFailedStatus returncode) w'
    | (FileNotFoundError, w') => build_print BuildFailedNoPyInstaller w'
    end.

(** The main block, lines 97-111. *)
Definition build_main (w : BuildWorld) : build_result unit * BuildWorld :=
  let w := build_print BuildStarted w in
  match install_dependencies w with
  | (Raised e, w') => (Raised e, w')
  | (Returned false, w') => (Raised (RaisedSystemExit 1), w')
  | (Returned true, w') =>
      (Returned tt, build_print BuildFinished (create_executable w'))
  end.

(** The exit status of the build process. *)
Definition build_status (w : BuildWorld) : Z :=
  match (build_main w).1 with
  | Returned _ => 0
  | Raised (RaisedSystemExit code) => code
  | Raised RaisedFileNotFoundError => 1
  end.

End Script.

(** A machine on which pip cannot install Pillow and which has the script
    and an icon. *)
Definition pip_without_pillow : BuildExternals := {|
  sys_executable := "python";
  os_getcwd := "/work";
  check_call := fun command ps =>
    match command with
    | [_; _; _; _; "Pillow"%string] => (CalledProcessError 1, ps)
    | "pyinstaller"%string :: _ => (CallOk, {["dist/pdf_compressor"%string]} ∪ ps)
    | _ => (CallOk, ps)
    end
|}.

(** A machine on which every installation succeeds and PyInstaller fails. *)
Definition failing_pyinstaller : BuildExternals := {|
  sys_executable := "python";
  os_getcwd := "/work";
  check_call := fun command ps =>
    match command with
    | "pyinstaller"%string :: _ => (CalledProcessError 2, ps)
    | _ => (CallOk, ps)
    end
|}.

Definition checkout : BuildWorld :=
  mkBuildWorld {[ "pdf_compressor.py"%string; "icon.ico"%string ]} [] [].

End Build.

(** * Properties *)

(** ** Running computations *)

Ltac raised := let H := fresh in intros H; inversion H; subst; split; reflexivity.

Lemma set_heap_id (w : World) (doc : nat) (d : Document) :
  heap w !! doc = Some d -> set_heap (<[doc := d]> (heap w)) w = w.
Proof.
  intros Hd. destruct w as [hp fs ds out clk]. unfold set_heap. simpl in *.
  by rewrite insert_id.
Qed.

Lemma set_heap_twice (w : World) (doc : nat) (d1 d2 : Document) :
  set_heap (<[doc := d2]> (heap (set_heap (<[doc := d1]> (heap w)) w)))
           (set_heap (<[doc := d1]> (heap w)) w)
  = set_heap (<[doc := d2]> (heap w)) w.
Proof. unfold set_heap. simpl. by rewrite insert_insert_eq. Qed.

Lemma get_doc_open (w : World) (doc : nat) (d : Document) :
  heap w !! doc = Some d -> is_closed d = false -> get_doc doc w = (Return d, w).
Proof. intros Hd Hc. unfold get_doc. by rewrite Hd, Hc. Qed.

Lemma doc_len_open (w : World) (doc : nat) (d : Document) :
  heap w !! doc = Some d -> is_closed d = false ->
  doc_len doc w = (Return (length (pages d)), w).
Proof. intros Hd Hc. unfold doc_len, bind. by rewrite (get_doc_open w doc d). Qed.

Lemma doc_pages_open (w : World) (doc : nat) (d : Document) :
  heap w !! doc = Some d -> is_closed d = false ->
  doc_pages doc w = (Return (pages d), w).
Proof. intros Hd Hc. unfold doc_pages, bind. by rewrite (get_doc_open w doc d). Qed.

Lemma for_loop_app {A S} (body : S -> A -> M S) (l1 l2 : list A) (s : S) (w : World) :
  for_loop body s (l1 ++ l2) w =
  match for_loop body s l1 w with
  | (Return s', w') => for_loop body s' l2 w'
  | (Raise e, w') => (Raise e, w')
  end.
Proof.
  revert s w. induction l1 as [|x l1 IH]; intros s w; simpl.
  - reflexivity.
  - unfold bind. destruct (body s x w) as [[s'|e] w']; [apply IH | reflexivity].
Qed.

Lemma enumerate_from_app {A} (i : nat) (l1 l2 : list A) :
  enumerate_from i (l1 ++ l2) = enumerate_from i l1 ++ enumerate_from (i + length l1) l2.
Proof.
  revert i. induction l1 as [|x l1 IH]; intros i; simpl.
  - by rewrite Nat.add_0_r.
  - rewrite IH. do 3 f_equal. lia.
Qed.

(** ** The smart compressor *)

Section Smart.

Variable E : Externals.
Variables (doc : nat) (quality : Z).

(** The [try] body either replaces the stream, or raises an [Exception] and
    leaves the world as it was. *)
Lemma recompress_image_run (xref : Z) (w : World) (d : Document) :
  heap w !! doc = Some d -> is_closed d = false ->
  recompress_image E doc quality xref w =
  match recompressed E d quality xref with
  | Done data => (Return tt, set_heap (<[doc := replace_stream d xref data]> (heap w)) w)
  | Failed msg => (Raise (Exception msg), w)
  end.
Proof.
  intros Hd Hc.
  unfold recompress_image, recompressed, extract_image, PIL_Image_open,
    PIL_save_jpeg, update_image, bind.
  rewrite (get_doc_open w doc d Hd Hc).
  destruct (objects d !! xref) as [image_bytes|]; [|reflexivity].
  unfold ret. destruct (Image_open E image_bytes) as [pil_img|msg]; [|reflexivity].
  simpl. destruct (Image_save_jpeg E pil_img quality) as [data|msg]; [|reflexivity].
  simpl. rewrite (get_doc_open w doc d Hd Hc).
  destruct (update_image_check E d xref data) as [[]|msg]; reflexivity.
Qed.

Lemma smart_image_run (c t i : nat) (xref : Z) (w : World) (d : Document) :
  heap w !! doc = Some d -> is_closed d = false ->
  smart_image E doc quality (c, t) (i, xref) w =
  match recompressed E d quality xref with
  | Done data => (Return ((c + 1)%nat, (t + 1)%nat),
                  set_heap (<[doc := replace_stream d xref data]> (heap w)) w)
  | Failed _ => (Return (c, (t + 1)%nat), w)
  end.
Proof.
  intros Hd Hc. unfold smart_image, try_except, bind.
  rewrite (recompress_image_run xref w d Hd Hc).
  destruct (recompressed E d quality xref); reflexivity.
Qed.

Lemma smart_pass_closed (xrefs : list Z) (d : Document) :
  is_closed (smart_pass E quality xrefs d).2 = is_closed d.
Proof.
  revert d. induction xrefs as [|x xs IH]; intros d; simpl; [done|].
  destruct (recompressed E d quality x) as [data|msg]; [|apply IH].
  specialize (IH (replace_stream d x data)).
  destruct (smart_pass E quality xs (replace_stream d x data)); simpl in *. done.
Qed.

Lemma smart_pass_pages (xrefs : list Z) (d : Document) :
  pages (smart_pass E quality xrefs d).2 = pages d.
Proof.
  revert d. induction xrefs as [|x xs IH]; intros d; simpl; [done|].
  destruct (recompressed E d quality x) as [data|msg]; [|apply IH].
  specialize (IH (replace_stream d x data)).
  destruct (smart_pass E quality xs (replace_stream d x data)); simpl in *. done.
Qed.

Lemma smart_pass_le (xrefs : list Z) (d : Document) :
  ((smart_pass E quality xrefs d).1 <= length xrefs)%nat.
Proof.
  revert d. induction xrefs as [|x xs IH]; intros d; simpl; [done|].
  destruct (recompressed E d quality x) as [data|msg].
  - specialize (IH (replace_stream d x data)).
    destruct (smart_pass E quality xs (replace_stream d x data)); simpl in *. lia.
  - specialize (IH d). lia.
Qed.

Lemma smart_pass_app (xs ys : list Z) (d : Document) :
  smart_pass E quality (xs ++ ys) d =
  let '(n1, d1) := smart_pass E quality xs d in
  let '(n2, d2) := smart_pass E quality ys d1 in
  ((n1 + n2)%nat, d2).
Proof.
  revert d. induction xs as [|x xs IH]; intros d; simpl.
  - by destruct (smart_pass E quality ys d).
  - destruct (recompressed E d quality x) as [data|msg]; [|apply IH].
    rewrite IH. destruct (smart_pass E quality xs (replace_stream d x data)) as [n1 d1].
    by destruct (smart_pass E quality ys d1).
Qed.


(** The inner loop, lines 76-96. *)
Lemma smart_images_run (xrefs : list Z) :
  forall (i c t : nat) (w : World) (d : Document),
  heap w !! doc = Some d -> is_closed d = false ->
  for_loop (smart_image E doc quality) (c, t) (enumerate_from i xrefs) w =
  (Return ((c + (smart_pass E quality xrefs d).1)%nat, (t + length xrefs)%nat),
   set_heap (<[doc := (smart_pass E quality xrefs d).2]> (heap w)) w).
Proof.
  induction xrefs as [|x xs IH]; intros i c t w d Hd Hc;
    cbn [for_loop enumerate_from smart_pass length].
  - unfold ret. cbn [fst snd]. rewrite (set_heap_id w doc d Hd). do 3 f_equal; lia.
  - unfold bind. rewrite (smart_image_run c t i x w d Hd Hc).
    destruct (recompressed E d quality x) as [data|msg].
    + rewrite (IH (S i) _ _ _ (replace_stream d x data)).
      * rewrite set_heap_twice.
        destruct (smart_pass E quality xs (replace_stream d x data)); cbn [fst snd].
        do 3 f_equal; lia.
      * cbn [heap set_heap]. by rewrite lookup_insert_eq.
      * done.
    + rewrite (IH (S i) _ _ _ d Hd Hc). do 3 f_equal; lia.
Qed.

(** The outer loop, lines 72-96: one progress line per page. *)
Lemma smart_pages_run (pgs : list Page) :
  forall (i c t : nat) (w : World) (d : Document),
  heap w !! doc = Some d -> is_closed d = false ->
  for_loop (smart_page E doc quality) (c, t) (enumerate_from i pgs) w =
  (Return ((c + (smart_pass E quality (concat (map images pgs)) d).1)%nat,
           (t + length (concat (map images pgs)))%nat),
   set_stdout (stdout w ++ map (fun j => ProgressAnalyzing (j + 1) (length (pages d)))
                               (seq i (length pgs)))
     (set_heap (<[doc := (smart_pass E quality (concat (map images pgs)) d).2]> (heap w)) w)).
Proof.
  induction pgs as [|p ps IH]; intros i c t w d Hd Hc;
    cbn [for_loop enumerate_from map concat length seq].
  - unfold ret. cbn [smart_pass fst snd]. rewrite app_nil_r.
    rewrite (set_heap_id w doc d Hd). destruct w; unfold set_stdout; simpl.
    do 3 f_equal; lia.
  - unfold bind at 1. unfold smart_page at 1. unfold bind, print.
    rewrite (doc_len_open w doc d Hd Hc). unfold enumerate.
    rewrite (smart_images_run (images p) 0 c t _ d); [| exact Hd | exact Hc].
    pose proof (smart_pass_closed (images p) d) as Hc1.
    pose proof (smart_pass_pages (images p) d) as Hp1.
    rewrite smart_pass_app, length_app.
    destruct (smart_pass E quality (images p) d) as [n1 d1]. cbn [fst snd] in *.
    rewrite (IH (S i) _ _ _ d1); [| cbn [heap set_heap set_stdout]; by rewrite lookup_insert_eq | congruence].
    rewrite Hp1.
    destruct (smart_pass E quality (concat (map images ps)) d1) as [n2 d2]. cbn [fst snd].
    unfold set_stdout, set_heap. cbn [heap files dirs stdout clock].
    rewrite insert_insert_eq, <- app_assoc. cbn [app].
    do 3 f_equal; lia.
Qed.

(** [compress_smart] on an open document: it returns the count of
    [smart_pass], leaves [smart_pass]'s document under the same handle and
    writes the progress lines and the summary line. *)
Lemma compress_smart_run (w : World) (d : Document) :
  heap w !! doc = Some d -> is_closed d = false ->
  compress_smart E doc quality w =
  (Return (smart_pass E quality (image_refs d) d).1,
   set_stdout (stdout w
               ++ map (fun j => ProgressAnalyzing (j + 1) (length (pages d)))
                      (seq 0 (length (pages d)))
               ++ [InfoRecompressed (smart_pass E quality (image_refs d) d).1
                                    (length (image_refs d))])
     (set_heap (<[doc := (smart_pass E quality (image_refs d) d).2]> (heap w)) w)).
Proof.
  intros Hd Hc. unfold compress_smart, bind.
  rewrite (doc_pages_open w doc d Hd Hc). unfold enumerate.
  rewrite (smart_pages_run (pages d) 0 0 0 w d Hd Hc).
  fold (image_refs d). cbn [Nat.add]. unfold print, ret, set_stdout, set_heap.
  cbn [heap files dirs stdout clock]. by rewrite <- app_assoc.
Qed.

End Smart.

(** The [try] body of [compress_smart] only ever raises an [Exception], and
    then the world is as it was before the attempt. *)
Lemma recompress_image_raise (E : Externals) (doc : nat) (quality xref : Z)
    (w w1 : World) (e : exn) :
  recompress_image E doc quality xref w = (Raise e, w1) ->
  is_Exception e = true /\ w1 = w.
Proof.
  intros Hr. destruct (heap w !! doc) as [d|] eqn:Hd.
  - destruct (is_closed d) eqn:Hc.
    + unfold recompress_image, extract_image, bind, get_doc in Hr.
      rewrite Hd, Hc in Hr. revert Hr. raised.
    + rewrite (recompress_image_run E doc quality xref w d Hd Hc) in Hr.
      destruct (recompressed E d quality xref); revert Hr; raised.
  - unfold recompress_image, extract_image, bind, get_doc in Hr.
    rewrite Hd in Hr. revert Hr. raised.
Qed.

(** C9: [compress_smart] returns the number of images successfully
    recompressed, and that number never exceeds the number of image references
    met.  On an open document the call returns [image_count]; the summary
    line shows it next to [total_images], which is the number of image
    references of all pages; [image_count <= total_images]; and in each pass
    of the inner loop [total_images] grows by one, while [image_count] grows
    by one exactly when the extraction, re-encoding and replacement of that
    image went through without an exception. *)
Theorem compress_smart_count (E : Externals) (doc : nat) (quality : Z)
    (w : World) (d : Document) :
  heap w !! doc = Some d -> is_closed d = false ->
  (exists (image_count : nat) (w' : World),
      compress_smart E doc quality w = (Return image_count, w')
      /\ last (stdout w') = Some (InfoRecompressed image_count (length (image_refs d)))
      /\ (image_count <= length (image_refs d))%nat
      /\ image_count = (smart_pass E quality (image_refs d) d).1)
  /\ (forall (c t i : nat) (xref : Z) (w1 : World),
         match recompress_image E doc quality xref w1 with
         | (Return _, w2) =>
             smart_image E doc quality (c, t) (i, xref) w1
             = (Return ((c + 1)%nat, (t + 1)%nat), w2)
         | (Raise _, w2) =>
             smart_image E doc quality (c, t) (i, xref) w1
             = (Return (c, (t + 1)%nat), w2)
         end).
Proof.
  intros Hd Hc. split.
  - eexists _, _. split; [apply (compress_smart_run E doc quality w d Hd Hc)|].
    split; [|split; [apply smart_pass_le | reflexivity]].
    cbn [stdout set_stdout]. by rewrite !app_assoc, last_snoc.
  - intros c t i xref w1. unfold smart_image, try_except, bind.
    destruct (recompress_image E doc quality xref w1) as [[[]|e] w2] eqn:Hr;
      [reflexivity|].
    apply recompress_image_raise in Hr as [-> _]. reflexivity.
Qed.

(** C3: in smart mode an image whose extraction, re-encoding or replacement
    raises is skipped, and nothing else happens.  When the [try] body raises
    on the image [xref], the world (the stream under [xref] included) is what
    it was before the attempt and the loop goes on with the next image, only
    [total_images] having grown; and [compress_smart] returns on every open
    document, whatever its images are. *)
Theorem smart_skips_failed_image (E : Externals) (doc : nat) (quality xref : Z)
    (w w1 : World) (e : exn) :
  recompress_image E doc quality xref w = (Raise e, w1) ->
  w1 = w
  /\ (forall (c t i : nat),
         smart_image E doc quality (c, t) (i, xref) w = (Return (c, (t + 1)%nat), w))
  /\ (forall (c t i : nat) (rest : list (nat * Z)),
         for_loop (smart_image E doc quality) (c, t) ((i, xref) :: rest) w
         = for_loop (smart_image E doc quality) (c, (t + 1)%nat) rest w)
  /\ (forall (w0 : World) (d : Document),
         heap w0 !! doc = Some d -> is_closed d = false ->
         exists (n : nat) (w' : World),
           compress_smart E doc quality w0 = (Return n, w')).
Proof.
  intros Hr. destruct (recompress_image_raise _ _ _ _ _ _ _ Hr) as [He ->].
  assert (Hstep : forall c t i,
             smart_image E doc quality (c, t) (i, xref) w = (Return (c, (t + 1)%nat), w)).
  { intros c t i. unfold smart_image, try_except, bind. rewrite Hr, He. reflexivity. }
  split; [reflexivity|]. split; [exact Hstep|]. split.
  - intros c t i rest. cbn [for_loop]. unfold bind at 1. by rewrite Hstep.
  - intros w0 d Hd Hc. eexists _, _. apply (compress_smart_run E doc quality w0 d Hd Hc).
Qed.


(** ** The aggressive compressor *)

Section Aggressive.

Variable E : Externals.
Variables (doc output_doc : nat) (quality : Z).
Hypothesis distinct : doc <> output_doc.

Lemma rasterize_page_run (page : Page) (w : World) (d : Document) :
  heap w !! doc = Some d -> is_closed d = false ->
  rasterize_page E doc page quality w =
  match rasterized E d quality page with
  | Done stream => (Return stream, w)
  | Failed msg => (Raise (Exception msg), w)
  end.
Proof.
  intros Hd Hc.
  unfold rasterize_page, rasterized, get_pixmap_ppm, PIL_Image_open, PIL_save_jpeg, bind.
  rewrite (get_doc_open w doc d Hd Hc).
  destruct (pixmap_ppm E d page 150) as [pix|msg]; [|reflexivity].
  simpl. unfold ret. destruct (Image_open E pix) as [img|msg]; [|reflexivity].
  simpl. destruct (Image_save_jpeg E img quality); reflexivity.
Qed.

(** [new_page] followed by [insert_image] on the new page. *)
Lemma new_page_insert_image (page : Page) (stream : bytes) (w : World) (dout : Document) :
  heap w !! output_doc = Some dout -> is_closed dout = false ->
  (let* new_page := new_page output_doc (width (rect page)) (height (rect page)) in
   insert_image output_doc new_page (rect page) stream) w
  = (Return tt, set_heap (<[output_doc := append_raster dout page stream]> (heap w)) w).
Proof.
  intros Ho Hc. unfold new_page, insert_image, bind, put_doc, ret.
  rewrite (get_doc_open w output_doc dout Ho Hc).
  unfold get_doc. cbn [heap set_heap]. rewrite lookup_insert_eq. cbn [is_closed pages].
  rewrite Hc. cbn [pages objects is_closed].
  rewrite list_lookup_middle by reflexivity.
  cbn [rect contents images objects is_closed app heap set_heap].
  rewrite insert_insert_eq. unfold append_raster.
  replace (length (pages dout)) with (length (pages dout) + 0)%nat by lia.
  rewrite insert_app_r. cbn [app]. rewrite Hc. reflexivity.
Qed.

Lemma aggressive_page_run (i : nat) (page : Page) (w : World) (d dout : Document) :
  heap w !! doc = Some d -> is_closed d = false ->
  heap w !! output_doc = Some dout -> is_closed dout = false ->
  aggressive_page E doc output_doc quality tt (i, page) w =
  match rasterized E d quality page with
  | Done stream =>
      (Return tt,
       set_stdout (stdout w ++ [ProgressRasterizing (i + 1) (length (pages d))])
         (set_heap (<[output_doc := append_raster dout page stream]> (heap w)) w))
  | Failed msg =>
      (Raise (Exception msg),
       set_stdout (stdout w ++ [ProgressRasterizing (i + 1) (length (pages d))]) w)
  end.
Proof.
  intros Hd Hc Ho Hoc. unfold aggressive_page. unfold bind at 1.
  rewrite (doc_len_open w doc d Hd Hc). unfold bind at 1. unfold print at 1.
  unfold bind at 1.
  rewrite (rasterize_page_run page _ d); [| exact Hd | exact Hc].
  destruct (rasterized E d quality page) as [stream|msg]; [|reflexivity].
  rewrite (new_page_insert_image page stream _ dout); [reflexivity | exact Ho | exact Hoc].
Qed.

Lemma append_raster_open (dout : Document) (page : Page) (stream : bytes) :
  is_closed (append_raster dout page stream) = is_closed dout.
Proof. reflexivity. Qed.

(** The loop of [compress_aggressive], lines 114-129: it returns when every
    page rasterizes, and raises the message of the first page that does not.
    Either way only the output document and standard output change. *)
Lemma aggressive_pages_run (pgs : list Page) :
  forall (i : nat) (w : World) (d dout : Document),
  heap w !! doc = Some d -> is_closed d = false ->
  heap w !! output_doc = Some dout -> is_closed dout = false ->
  exists (w' : World) (dout' : Document),
    for_loop (aggressive_page E doc output_doc quality) tt (enumerate_from i pgs) w
    = (match aggressive_pass E d quality pgs dout with
       | Done _ => Return tt
       | Failed msg => Raise (Exception msg)
       end, w')
    /\ heap w' = <[output_doc := dout']> (heap w)
    /\ is_closed dout' = false
    /\ files w' = files w
    /\ (forall x, aggressive_pass E d quality pgs dout = Done x -> dout' = x).
Proof.
  induction pgs as [|p ps IH]; intros i w d dout Hd Hc Ho Hoc;
    cbn [for_loop enumerate_from aggressive_pass].
  - exists w, dout. unfold ret. repeat split; try done.
    + by rewrite insert_id.
    + by intros x [= ->].
  - unfold bind at 1. rewrite (aggressive_page_run i p w d dout Hd Hc Ho Hoc).
    destruct (rasterized E d quality p) as [stream|msg].
    + edestruct (IH (S i) (set_stdout (stdout w ++ [ProgressRasterizing (i + 1) (length (pages d))])
                         (set_heap (<[output_doc := append_raster dout p stream]> (heap w)) w))
                  d (append_raster dout p stream))
        as (w' & dout' & Hrun & Hheap & Hopen & Hfiles & Hdone).
      * cbn [heap set_heap set_stdout]. by rewrite lookup_insert_ne.
      * exact Hc.
      * cbn [heap set_heap set_stdout]. by rewrite lookup_insert_eq.
      * exact Hoc.
      * exists w', dout'. rewrite Hrun. repeat split; try done.
        rewrite Hheap. cbn [heap set_heap set_stdout]. by rewrite insert_insert_eq.
    + eexists _, dout. repeat split; try done.
      cbn [heap set_heap set_stdout]. by rewrite insert_id.
Qed.

End Aggressive.

Section AggressivePass.

Variable E : Externals.
Variables (d : Document) (quality : Z).

Lemma aggressive_pass_rects (pgs : list Page) :
  forall (dout dout' : Document),
  aggressive_pass E d quality pgs dout = Done dout' ->
  map rect (pages dout') =
  map rect (pages dout)
    ++ map (fun p => mkRect 0 0 (width (rect p)) (height (rect p))) pgs.
Proof.
  induction pgs as [|p ps IH]; intros dout dout'; cbn [aggressive_pass map].
  - intros [= ->]. by rewrite app_nil_r.
  - destruct (rasterized E d quality p) as [stream|msg]; [|done].
    intros H. rewrite (IH _ _ H). unfold append_raster. cbn [pages].
    rewrite map_app, <- app_assoc. reflexivity.
Qed.

Lemma aggressive_pass_all_done (pgs : list Page) :
  forall (dout : Document),
  (forall p, p ∈ pgs -> is_Done (rasterized E d quality p)) ->
  exists dout', aggressive_pass E d quality pgs dout = Done dout'.
Proof.
  induction pgs as [|p ps IH]; intros dout Hall; cbn [aggressive_pass].
  - by exists dout.
  - pose proof (Hall p (list_elem_of_here p ps)) as Hp.
    destruct (rasterized E d quality p) as [stream|msg]; [|done].
    apply IH. intros p' Hp'. apply Hall. by apply list_elem_of_further.
Qed.

Lemma aggressive_pass_first_failure (pre post : list Page) (p : Page) (msg : string) :
  forall (dout : Document),
  (forall p', p' ∈ pre -> is_Done (rasterized E d quality p')) ->
  rasterized E d quality p = Failed msg ->
  aggressive_pass E d quality (pre ++ p :: post) dout = Failed msg.
Proof.
  induction pre as [|p0 pre IH]; intros dout Hall Hp; cbn [aggressive_pass app].
  - by rewrite Hp.
  - pose proof (Hall p0 (list_elem_of_here p0 pre)) as Hp0.
    destruct (rasterized E d quality p0) as [stream|msg0]; [|done].
    apply IH; [|exact Hp]. intros p' Hp'. apply Hall. by apply list_elem_of_further.
Qed.

(** [compress_aggressive] on an open document: the handle it returns is new,
    the document under it is the one [aggressive_pass] builds from an empty
    document; when a page fails, the message of that page is raised. *)
Lemma compress_aggressive_run (doc : nat) (w : World) :
  heap w !! doc = Some d -> is_closed d = false ->
  exists (w' : World) (dout' : Document),
    compress_aggressive E doc quality w
    = (match aggressive_pass E d quality (pages d) (mkDocument [] ∅ false) with
       | Done _ => Return (fresh (dom (heap w)))
       | Failed msg => Raise (Exception msg)
       end, w')
    /\ fresh (dom (heap w)) <> doc
    /\ heap w' = <[fresh (dom (heap w)) := dout']> (heap w)
    /\ is_closed dout' = false
    /\ files w' = files w
    /\ (forall x, aggressive_pass E d quality (pages d) (mkDocument [] ∅ false) = Done x
                  -> dout' = x).
Proof.
  intros Hd Hc.
  assert (Hne : doc <> fresh (dom (heap w))).
  { intros Heq. apply (is_fresh (dom (heap w))). rewrite <- Heq.
    apply elem_of_dom. by exists d. }
  set (output_doc := fresh (dom (heap w))) in *.
  set (w0 := set_heap (<[output_doc := mkDocument [] ∅ false]> (heap w)) w).
  assert (Hd0 : heap w0 !! doc = Some d).
  { unfold w0. cbn [heap set_heap]. by rewrite lookup_insert_ne. }
  assert (Ho0 : heap w0 !! output_doc = Some (mkDocument [] ∅ false)).
  { unfold w0. cbn [heap set_heap]. by rewrite lookup_insert_eq. }
  destruct (aggressive_pages_run E doc output_doc quality Hne (pages d) 0 w0 d
              (mkDocument [] ∅ false) Hd0 Hc Ho0 eq_refl)
    as (w' & dout' & Hrun & Hheap & Hopen & Hfiles & Hdone).
  exists w', dout'. split.
  - unfold compress_aggressive, bind, fitz_open_new, new_doc.
    fold output_doc. fold w0. rewrite (doc_pages_open w0 doc d Hd0 Hc).
    unfold enumerate. rewrite Hrun.
    by destruct (aggressive_pass E d quality (pages d) (mkDocument [] ∅ false)).
  - split; [congruence|]. split.
    + rewrite Hheap. unfold w0. cbn [heap set_heap]. by rewrite insert_insert_eq.
    + split; [exact Hopen|]. split; [by rewrite Hfiles|exact Hdone].
Qed.

End AggressivePass.

(** C1: the document the aggressive compressor produces has as many pages as
    its input, each of the width and height of the input page at the same
    index.  On an open document [compress_aggressive] returns whenever every
    page renders and encodes; and whenever it returns, the document under the
    returned handle has the page count of the input and, index by index, the
    width and height of the input's pages, while the input document is as it
    was. *)
Theorem aggressive_preserves_geometry (E : Externals) (doc : nat) (quality : Z)
    (w : World) (d : Document) :
  heap w !! doc = Some d -> is_closed d = false ->
  ((forall p, p ∈ pages d -> is_Done (rasterized E d quality p)) ->
   exists (output_doc : nat) (w' : World),
     compress_aggressive E doc quality w = (Return output_doc, w'))
  /\ (forall (output_doc : nat) (w' : World),
        compress_aggressive E doc quality w = (Return output_doc, w') ->
        exists dout : Document,
          heap w' !! output_doc = Some dout
          /\ heap w' !! doc = Some d
          /\ length (pages dout) = length (pages d)
          /\ forall (i : nat) (p : Page),
               pages d !! i = Some p ->
               exists p' : Page,
                 pages dout !! i = Some p'
                 /\ (width (rect p') == width (rect p))%Q
                 /\ (height (rect p') == height (rect p))%Q).
Proof.
  intros Hd Hc.
  destruct (compress_aggressive_run E d quality doc w Hd Hc)
    as (w1 & dout & Hrun & Hne & Hheap & Hopen & Hfiles & Hdone).
  split.
  - intros Hall.
    destruct (aggressive_pass_all_done E d quality (pages d) (mkDocument [] ∅ false) Hall)
      as [x Hx].
    rewrite Hx in Hrun. eauto.
  - intros output_doc w' Hret. rewrite Hrun in Hret.
    destruct (aggressive_pass E d quality (pages d) (mkDocument [] ∅ false))
      as [x|msg] eqn:Hpass; [|done].
    injection Hret as <- <-. rewrite (Hdone x eq_refl) in Hheap.
    pose proof (aggressive_pass_rects E d quality _ _ _ Hpass) as Hrects.
    cbn [pages map app] in Hrects.
    exists x. rewrite Hheap.
    split; [by rewrite lookup_insert_eq|].
    split; [by rewrite lookup_insert_ne|].
    split.
    + apply (f_equal length) in Hrects. by rewrite !length_map in Hrects.
    + intros i p Hp.
      assert (Hi : map rect (pages x) !! i
                   = Some (mkRect 0 0 (width (rect p)) (height (rect p)))).
      { rewrite Hrects, list_lookup_fmap, Hp. reflexivity. }
      rewrite list_lookup_fmap in Hi.
      destruct (pages x !! i) as [p'|] eqn:Hp'; [|done].
      injection Hi as Hi. exists p'. split; [done|].
      rewrite Hi. unfold width, height. cbn [x0 x1 y0 y1]. split; ring.
Qed.

(** C4: in aggressive mode an error raised while a page is rendered or
    encoded is not caught by the compressor.  When [p] is the first page of
    the open input document for which rendering or encoding fails, with
    message [msg], then [rasterize_page] raises [Exception msg] on [p],
    [compress_aggressive] raises that same exception instead of returning a
    document, and so does the aggressive branch of [main]'s [try] body, which
    therefore never reaches [save]: no file is written. *)
Theorem aggressive_error_propagates (E : Externals) (args : Args) (doc : nat)
    (quality : Z) (output_path : string) (w : World) (d : Document)
    (pre post : list Page) (p : Page) (msg : string) :
  heap w !! doc = Some d -> is_closed d = false ->
  pages d = pre ++ p :: post ->
  (forall p', p' ∈ pre -> is_Done (rasterized E d quality p')) ->
  rasterized E d quality p = Failed msg ->
  rasterize_page E doc p quality w = (Raise (Exception msg), w)
  /\ (exists w' : World,
         compress_aggressive E doc quality w = (Raise (Exception msg), w')
         /\ files w' = files w)
  /\ (mode args = Aggressive ->
      exists w' : World,
        main_process E args doc quality output_path w = (Raise (Exception msg), w')
        /\ files w' = files w).
Proof.
  intros Hd Hc Hpages Hpre Hp.
  assert (Hpass : forall dout, aggressive_pass E d quality (pages d) dout = Failed msg).
  { intros dout. rewrite Hpages. by apply aggressive_pass_first_failure. }
  split; [|split].
  - rewrite (rasterize_page_run E doc quality p w d Hd Hc). by rewrite Hp.
  - destruct (compress_aggressive_run E d quality doc w Hd Hc)
      as (w' & dout & Hrun & _ & _ & _ & Hfiles & _).
    rewrite Hpass in Hrun. eauto.
  - intros Hm. unfold main_process. rewrite Hm. unfold bind at 1. unfold print at 1.
    unfold bind at 1.
    destruct (compress_aggressive_run E d quality doc
                (set_stdout (stdout w ++ [RunningAggressive]) w) Hd Hc)
      as (w' & dout & Hrun & _ & _ & _ & Hfiles & _).
    rewrite Hpass in Hrun. rewrite Hrun. eauto.
Qed.

(** ** The report *)

Lemma size_mb_pos (size : Z) : 0 < size -> (0 < size_mb size)%Q.
Proof.
  intros Hpos. unfold size_mb, Qlt, Qdiv, Qmult, Qinv, inject_Z. simpl. lia.
Qed.

Lemma reduction_percent_zero (compressed_size_mb : Q) :
  reduction_percent compressed_size_mb (size_mb 0) = 0%Q.
Proof.
  unfold reduction_percent.
  destruct (Qlt_le_dec 0 (size_mb 0)) as [Hlt|_]; [|reflexivity].
  exfalso. revert Hlt. unfold size_mb, Qlt. simpl. lia.
Qed.

(** The success branch of the report, lines 240-251. *)
Lemma main_report_success (output_path : string)
    (original_size_mb : Q) (w : World) (data : bytes) :
  files w !! output_path = Some data ->
  main_report true output_path original_size_mb w =
  (Return tt,
   set_stdout (stdout w ++ [ReportSuccess output_path (size_mb (Z.of_nat (length data)))
                              (reduction_percent (size_mb (Z.of_nat (length data)))
                                                 original_size_mb)]) w).
Proof.
  intros Hf. unfold main_report, bind, os_path_exists, os_path_getsize.
  rewrite Hf. rewrite bool_decide_eq_true_2 by eauto. cbn [andb orb].
  rewrite Hf. reflexivity.
Qed.


(** C10: for an input file of zero bytes the reported reduction is 0.  The
    division of line 242 is guarded by [original_size_mb > 0]: with
    [original_size_mb] computed from a size of 0, [reduction_percent] is 0
    whatever the compressed size, and so is the reduction on the report
    line. *)
Theorem zero_size_reduction (output_path : string) (w : World)
    (data : bytes) :
  (forall compressed_size_mb : Q, reduction_percent compressed_size_mb (size_mb 0) = 0%Q)
  /\ (files w !! output_path = Some data ->
      main_report true output_path (size_mb 0) w
      = (Return tt,
         set_stdout (stdout w ++ [ReportSuccess output_path
                                    (size_mb (Z.of_nat (length data))) 0%Q]) w)).
Proof.
  split; [apply reduction_percent_zero|].
  intros Hf. rewrite (main_report_success _ _ _ _ Hf).
  by rewrite reduction_percent_zero.
Qed.

(** ** Quality selection *)

(** X12: a custom quality overrides the profile.  With [--quality q] and
    [q] in 1..95 the run uses quality [q] under the profile name "custom",
    whatever [--profile] says, and the selection prints nothing. *)
Lemma select_quality_in_range (args : Args) (q : Z) (w : World) :
  quality args = Some q -> 1 <= q <= 95 ->
  select_quality args w = (Return (q, "custom"%string), w).
Proof.
  intros Hq Hr. unfold select_quality, int_bool. rewrite Hq.
  replace (q =? 0) with false by lia.
  replace ((1 <=? q) && (q <=? 95)) with true by lia.
  reflexivity.
Qed.

Lemma select_quality_out_of_range (args : Args) (q : Z) (w : World) :
  quality args = Some q -> q <> 0 -> ~ (1 <= q <= 95) ->
  select_quality args w = (Raise (SystemExit 1), set_stdout (stdout w ++ [ErrorQuality]) w).
Proof.
  intros Hq H0 Hr. unfold select_quality, int_bool. rewrite Hq.
  replace (q =? 0) with false by lia.
  replace ((1 <=? q) && (q <=? 95)) with false by lia.
  reflexivity.
Qed.

Lemma select_quality_zero (args : Args) (w : World) :
  quality args = Some 0 ->
  select_quality args w
  = (Return (COMPRESSION_PROFILES (profile args), profile_key (profile args)), w).
Proof. intros Hq. unfold select_quality. rewrite Hq. reflexivity. Qed.

(** A quality outside 1..95 other than 0 ends the process with status 1
    before anything is opened, created or written. *)
Lemma main_quality_rejected (E : Externals) (args : Args) (q : Z) (w : World) :
  quality args = Some q -> q <> 0 -> ~ (1 <= q <= 95) ->
  exists w' : World,
    main E args w = (Raise (SystemExit 1), w')
    /\ files w' = files w /\ dirs w' = dirs w /\ heap w' = heap w.
Proof.
  intros Hq H0 Hr. unfold main. unfold bind at 1. unfold os_path_isfile at 1.
  destruct (bool_decide (is_Some (files w !! input_file args))); cbn [negb].
  - unfold bind at 1. unfold ret at 1. unfold bind at 1.
    rewrite (select_quality_out_of_range args q w Hq H0 Hr). eauto.
  - unfold bind at 1. unfold bind at 1. unfold print at 1. unfold sys_exit, raise. eauto.
Qed.

(** X13: a quality other than 0 outside 1..95 ends the process with status
    1 before any work: no file, directory or document object has been
    created or changed. *)
Lemma run_quality_rejected (E : Externals) (args : Args) (q : Z) (w : World) :
  quality args = Some q -> q <> 0 -> ~ (1 <= q <= 95) ->
  (run E args w).1 = 1
  /\ files (run E args w).2 = files w
  /\ dirs (run E args w).2 = dirs w
  /\ heap (run E args w).2 = heap w.
Proof.
  intros Hq H0 Hr.
  destruct (main_quality_rejected E args q w Hq H0 Hr) as (w' & Hmain & Hf & Hd & Hh).
  unfold run. rewrite Hmain. done.
Qed.

(** C2 (defect): [--quality 0] is not rejected.  The test [if args.quality:]
    of line 187 is false for 0, so the range check of line 188 is skipped and
    the run goes on with the quality of the profile: on the sample file with
    [--quality 0] the selection returns quality 40 under the name "medium"
    without printing an error, the process ends with status 0 and the
    compressed file is written. *)
Theorem quality_zero_not_rejected :
  select_quality Demo.args_quality_zero Demo.world0
  = (Return (40, "medium"%string), Demo.world0)
  /\ (run Demo.demo Demo.args_quality_zero Demo.world0).1 = 0
  /\ (ErrorQuality ∉ stdout (run Demo.demo Demo.args_quality_zero Demo.world0).2)
  /\ is_Some (files (run Demo.demo Demo.args_quality_zero Demo.world0).2
                !! "out/sample__medium_q40_1700000000.pdf"%string).
Proof.
  split; [reflexivity|]. split; [by vm_compute|]. split.
  - vm_compute. intros H. repeat (inversion H as [|? ? ? H']; clear H; rename H' into H).
  - vm_compute. eauto.
Qed.

(** ** Failed runs *)

(** The failure branch of the report, lines 252-257: the output file, if
    there is one, is removed, and [main] returns. *)
Lemma main_report_failure (output_path : string) (original_size_mb : Q) (w : World) :
  output_path ∉ dirs w ->
  exists w' : World,
    main_report false output_path original_size_mb w = (Return tt, w')
    /\ files w' = delete output_path (files w)
    /\ heap w' = heap w.
Proof.
  intros Hdir. unfold main_report, bind, os_path_exists, print, os_remove.
  cbn [andb files set_stdout dirs].
  rewrite (bool_decide_eq_false_2 (output_path ∈ dirs w)) by done.
  destruct (files w !! output_path) as [data|] eqn:Hf.
  - rewrite bool_decide_eq_true_2 by eauto. cbn [orb files set_stdout]. rewrite Hf. eauto.
  - rewrite bool_decide_eq_false_2 by (by intros [? ?]). cbn [orb].
    eexists. split; [reflexivity|]. split; [|reflexivity].
    cbn [files set_stdout]. by rewrite delete_id.
Qed.

(** When the output document is built but [save] raises, the aggressive
    branch of the [try] body raises before it reaches [output_doc.close()]. *)
Lemma aggressive_failed_save (E : Externals) (args : Args) (doc : nat)
    (quality : Z) (output_path : string) (w : World) (d dout : Document)
    (msg : string) (partial : option bytes) :
  mode args = Aggressive ->
  heap w !! doc = Some d -> is_closed d = false ->
  aggressive_pass E d quality (pages d) (mkDocument [] ∅ false) = Done dout ->
  pdf_write E dout = SaveFailed msg partial ->
  exists w' : World,
    main_process E args doc quality output_path w = (Raise (Exception msg), w')
    /\ heap w' !! fresh (dom (heap w)) = Some dout
    /\ is_closed dout = false.
Proof.
  intros Hm Hd Hc Hpass Hsave. unfold main_process. rewrite Hm.
  unfold bind at 1. unfold print at 1. unfold bind at 1.
  destruct (compress_aggressive_run E d quality doc
              (set_stdout (stdout w ++ [RunningAggressive]) w) Hd Hc)
    as (w1 & dout' & Hrun & _ & Hheap & Hopen & _ & Hdone).
  rewrite Hpass in Hrun. rewrite (Hdone dout Hpass) in *. rewrite Hrun.
  cbn [heap set_stdout] in Hheap.
  assert (Hlook : heap w1 !! fresh (dom (heap w)) = Some dout).
  { rewrite Hheap. by rewrite lookup_insert_eq. }
  cbn [heap set_stdout]. unfold bind at 1. unfold save at 1. unfold bind at 1.
  rewrite (get_doc_open w1 _ dout Hlook Hopen). rewrite Hsave.
  destruct partial as [data|]; eexists; (split; [reflexivity|]); split; done.
Qed.

(** C5 (defect): a failed run removes the partial output file, but the
    process ends with status 0.  On the three-page file in aggressive mode
    [save] raises after part of the output was written: the [try] statement
    yields [success = False] with the partial file on disk; [main] then
    prints the failure banner, removes the file and returns, so that the
    exit status is 0, not 1. *)
Theorem failed_run_exits_with_zero :
  (main_try Demo.demo Demo.args_disk_full 40
     "out/large__medium_q40_1700000000.pdf" Demo.world0).1 = Return false
  /\ files (main_try Demo.demo Demo.args_disk_full 40
              "out/large__medium_q40_1700000000.pdf" Demo.world0).2
       !! "out/large__medium_q40_1700000000.pdf"%string = Some [Byte.x25]
  /\ (run Demo.demo Demo.args_disk_full Demo.world0).1 = 0
  /\ last (stdout (run Demo.demo Demo.args_disk_full Demo.world0).2) = Some ReportFailed
  /\ files (run Demo.demo Demo.args_disk_full Demo.world0).2
       !! "out/large__medium_q40_1700000000.pdf"%string = None
  /\ files (run Demo.demo Demo.args_disk_full Demo.world0).2 = files Demo.world0.
Proof. repeat split; by vm_compute. Qed.

(** C8 (defect): when [save] fails in aggressive mode the output document is
    never closed.  On the three-page file the input document is the object
    of handle 0 and the output document the object of handle 1; [save]
    raises, [output_doc.close()] of line 229 is skipped, and [finally]
    closes [doc] only: at the end of the run the input document is closed
    and the output document is not.  When [save] succeeds (the two-page
    sample) both are closed. *)
Theorem output_document_left_open :
  (fitz_open Demo.demo "large" Demo.world0).1 = Return 0%nat
  /\ (compress_aggressive Demo.demo 0 40
        (fitz_open Demo.demo "large" Demo.world0).2).1 = Return 1%nat
  /\ (run Demo.demo Demo.args_disk_full Demo.world0).1 = 0
  /\ is_closed <$> heap (run Demo.demo Demo.args_disk_full Demo.world0).2 !! 0%nat
     = Some true
  /\ is_closed <$> heap (run Demo.demo Demo.args_disk_full Demo.world0).2 !! 1%nat
     = Some false
  /\ is_closed <$> heap (run Demo.demo Demo.args_aggressive Demo.world0).2 !! 1%nat
     = Some true.
Proof. repeat split; by vm_compute. Qed.

(** ** Instances on the sample documents *)

Lemma aggressive_preserves_geometry_witness :
  heap Demo.world1 !! 0%nat = Some Demo.sample_doc
  /\ is_closed Demo.sample_doc = false
  /\ ((forall p, p ∈ pages Demo.sample_doc ->
                 is_Done (rasterized Demo.demo Demo.sample_doc 40 p)) ->
      exists (output_doc : nat) (w' : World),
        compress_aggressive Demo.demo 0 40 Demo.world1 = (Return output_doc, w'))
  /\ (forall (output_doc : nat) (w' : World),
        compress_aggressive Demo.demo 0 40 Demo.world1 = (Return output_doc, w') ->
        exists dout : Document,
          heap w' !! output_doc = Some dout
          /\ heap w' !! 0%nat = Some Demo.sample_doc
          /\ length (pages dout) = length (pages Demo.sample_doc)
          /\ forall (i : nat) (p : Page),
               pages Demo.sample_doc !! i = Some p ->
               exists p' : Page,
                 pages dout !! i = Some p'
                 /\ (width (rect p') == width (rect p))%Q
                 /\ (height (rect p') == height (rect p))%Q).
Proof.
  split; [reflexivity|]. split; [reflexivity|].
  apply (aggressive_preserves_geometry Demo.demo 0 40 Demo.world1 Demo.sample_doc);
    reflexivity.
Defined.

Lemma smart_skips_failed_image_witness :
  recompress_image Demo.demo 0 40 6 Demo.world1
  = (Raise (Exception "cannot identify image file"), Demo.world1)
  /\ Demo.world1 = Demo.world1
  /\ (forall (c t i : nat),
         smart_image Demo.demo 0 40 (c, t) (i, 6) Demo.world1
         = (Return (c, (t + 1)%nat), Demo.world1))
  /\ (forall (c t i : nat) (rest : list (nat * Z)),
         for_loop (smart_image Demo.demo 0 40) (c, t) ((i, 6) :: rest) Demo.world1
         = for_loop (smart_image Demo.demo 0 40) (c, (t + 1)%nat) rest Demo.world1)
  /\ (forall (w0 : World) (d : Document),
         heap w0 !! 0%nat = Some d -> is_closed d = false ->
         exists (n : nat) (w' : World),
           compress_smart Demo.demo 0 40 w0 = (Return n, w')).
Proof.
  split; [vm_compute; reflexivity|].
  apply (smart_skips_failed_image Demo.demo 0 40 6 Demo.world1 Demo.world1
           (Exception "cannot identify image file")).
  vm_compute; reflexivity.
Defined.

Lemma aggressive_error_propagates_witness :
  heap Demo.world_blank !! 0%nat = Some Demo.blank_doc
  /\ is_closed Demo.blank_doc = false
  /\ pages Demo.blank_doc = [Demo.page_a] ++ Demo.page_blank :: []
  /\ rasterized Demo.demo Demo.blank_doc 40 Demo.page_blank = Failed "cannot render page"
  /\ rasterize_page Demo.demo 0 Demo.page_blank 40 Demo.world_blank
     = (Raise (Exception "cannot render page"), Demo.world_blank)
  /\ (exists w' : World,
         compress_aggressive Demo.demo 0 40 Demo.world_blank
         = (Raise (Exception "cannot render page"), w')
         /\ files w' = files Demo.world_blank)
  /\ (mode Demo.args_blank_page = Aggressive ->
      exists w' : World,
        main_process Demo.demo Demo.args_blank_page 0 40 "out.pdf" Demo.world_blank
        = (Raise (Exception "cannot render page"), w')
        /\ files w' = files Demo.world_blank).
Proof.
  split; [reflexivity|]. split; [reflexivity|]. split; [reflexivity|].
  split; [reflexivity|].
  apply (aggressive_error_propagates Demo.demo Demo.args_blank_page 0 40 "out.pdf"
           Demo.world_blank Demo.blank_doc [Demo.page_a] [] Demo.page_blank
           "cannot render page"); try reflexivity.
  intros p' Hp'. apply list_elem_of_singleton in Hp'. rewrite Hp'. exact I.
Defined.



Lemma compress_smart_count_witness :
  heap Demo.world1 !! 0%nat = Some Demo.sample_doc
  /\ is_closed Demo.sample_doc = false
  /\ (exists (image_count : nat) (w' : World),
         compress_smart Demo.demo 0 40 Demo.world1 = (Return image_count, w')
         /\ last (stdout w')
            = Some (InfoRecompressed image_count (length (image_refs Demo.sample_doc)))
         /\ (image_count <= length (image_refs Demo.sample_doc))%nat
         /\ image_count = (smart_pass Demo.demo 40 (image_refs Demo.sample_doc)
                             Demo.sample_doc).1)
  /\ (forall (c t i : nat) (xref : Z) (w1 : World),
         match recompress_image Demo.demo 0 40 xref w1 with
         | (Return _, w2) =>
             smart_image Demo.demo 0 40 (c, t) (i, xref) w1
             = (Return ((c + 1)%nat, (t + 1)%nat), w2)
         | (Raise _, w2) =>
             smart_image Demo.demo 0 40 (c, t) (i, xref) w1
             = (Return (c, (t + 1)%nat), w2)
         end).
Proof.
  split; [reflexivity|]. split; [reflexivity|].
  apply (compress_smart_count Demo.demo 0 40 Demo.world1 Demo.sample_doc); reflexivity.
Defined.

Lemma zero_size_reduction_witness :
  files Demo.world0 !! "empty"%string = Some [Byte.x02]
  /\ (forall compressed_size_mb : Q,
         reduction_percent compressed_size_mb (size_mb 0) = 0%Q)
  /\ main_report true "empty" (size_mb 0) Demo.world0
     = (Return tt,
        set_stdout (stdout Demo.world0 ++ [ReportSuccess "empty" (size_mb 1) 0%Q])
          Demo.world0).
Proof.
  split; [reflexivity|].
  destruct (zero_size_reduction "empty" Demo.world0 [Byte.x02]) as [Hzero Hreport].
  split; [exact Hzero|]. apply Hreport. reflexivity.
Defined.

(** * Further properties *)

(** ** Sequencing *)

Lemma bind_return {A B} (m : M A) (k : A -> M B) (w w1 : World) (a : A) :
  m w = (Return a, w1) -> bind m k w = k a w1.
Proof. intros Hm. unfold bind. by rewrite Hm. Qed.

Lemma bind_raise {A B} (m : M A) (k : A -> M B) (w w1 : World) (e : exn) :
  m w = (Raise e, w1) -> bind m k w = (Raise e, w1).
Proof. intros Hm. unfold bind. by rewrite Hm. Qed.

(** ** The output path *)

(** The three ways through [get_output_path]. *)
Lemma get_output_path_run (E : Externals) (input_path output_dir profile_name : string)
    (quality_val : Z) (w : World) :
  get_output_path E input_path output_dir profile_name quality_val w =
  if bool_decide (is_Some (files w !! output_dir)) || bool_decide (output_dir ∈ dirs w)
  then (Return (Some (output_name E input_path output_dir profile_name quality_val (clock w))), w)
  else match os_makedirs_check E output_dir with
       | Done _ =>
           (Return (Some (output_name E input_path output_dir profile_name quality_val
                            (clock w))),
            set_stdout (stdout w ++ [InfoCreatedDir output_dir])
              (set_dirs ({[output_dir]}
                         ∪ (list_to_set (os_makedirs_created E output_dir (dirs w)) ∪ dirs w))
                 w))
       | Failed msg =>
           (Return None,
            set_stdout (stdout w ++ [ErrorCreateDir output_dir msg])
              (set_dirs (list_to_set (os_makedirs_created E output_dir (dirs w)) ∪ dirs w) w))
       end.
Proof.
  unfold get_output_path, output_name, bind at 1, os_path_exists at 1.
  destruct (bool_decide (is_Some (files w !! output_dir)) || bool_decide (output_dir ∈ dirs w));
    cbn [negb].
  - unfold bind, ret, time_time. cbn [negb].
    by destruct (os_path_splitext E (os_path_basename E input_path)).
  - unfold bind, try_except, os_makedirs, print, ret, time_time.
    destruct (os_makedirs_check E output_dir) as [[]|msg]; cbn [is_OSError negb exn_str].
    + by destruct (os_path_splitext E (os_path_basename E input_path)).
    + reflexivity.
Qed.

(** X1: [get_output_path] never raises, touches neither files nor documents
    and removes no directory.  When the output directory exists the world is
    left as it is.  It returns [None] exactly when the directory does not
    exist and [os.makedirs] raises; the directories [os.makedirs] made before
    the error stay.  Otherwise it returns the path built from the input name,
    the profile name, the quality and the time of the call, and the output
    directory exists afterwards. *)
Theorem get_output_path_outcome (E : Externals)
    (input_path output_dir profile_name : string) (quality_val : Z) (w : World) :
  exists (r : option string) (w' : World),
    get_output_path E input_path output_dir profile_name quality_val w = (Return r, w')
    /\ files w' = files w
    /\ heap w' = heap w
    /\ dirs w ⊆ dirs w'
    /\ ((os_path_exists output_dir w).1 = Return true -> w' = w)
    /\ (r = None <->
        (os_path_exists output_dir w).1 = Return false
        /\ ~ is_Done (os_makedirs_check E output_dir))
    /\ (r = None ->
        dirs w' = list_to_set (os_makedirs_created E output_dir (dirs w)) ∪ dirs w)
    /\ (forall path : string,
           r = Some path ->
           path = output_name E input_path output_dir profile_name quality_val (clock w)
           /\ (os_path_exists output_dir w').1 = Return true).
Proof.
  rewrite get_output_path_run. unfold os_path_exists. cbn [fst].
  destruct (bool_decide (is_Some (files w !! output_dir)) || bool_decide (output_dir ∈ dirs w))
    eqn:Hthere.
  - eexists _, _. split; [reflexivity|]. split; [done|]. split; [done|].
    split; [done|]. split; [done|].
    split; [split; [done | by intros [[=] _]] |]. split; [done|].
    intros path [= <-]. by rewrite Hthere.
  - destruct (os_makedirs_check E output_dir) as [[]|msg].
    + eexists _, _. split; [reflexivity|]. split; [done|]. split; [done|].
      cbn [files dirs set_stdout set_dirs].
      split; [set_solver|]. split; [by intros [=]|].
      split; [split; [done | intros [_ Hn]; by destruct Hn] |]. split; [done|].
      intros path [= <-]. split; [done|].
      rewrite (bool_decide_eq_true_2 (output_dir ∈ _)) by set_solver.
      by rewrite orb_true_r.
    + eexists _, _. split; [reflexivity|]. split; [done|]. split; [done|].
      cbn [files dirs set_stdout set_dirs].
      split; [set_solver|]. split; [by intros [=]|].
      split; [split; [intros _; split; [done | by intros []] | done] |].
      split; [done|]. by intros path [=].
Qed.

(** X2: the output path depends on the time of the call only through
    [int(time.time())].  Two calls with the same arguments whose clocks have
    the same integer part return the same path: the second run writes to the
    file of the first. *)
Theorem output_path_same_second (E : Externals)
    (input_path output_dir profile_name : string) (quality_val : Z)
    (w1 w2 w1' w2' : World) (p1 p2 : string) :
  int_float (clock w1) = int_float (clock w2) ->
  get_output_path E input_path output_dir profile_name quality_val w1 = (Return (Some p1), w1') ->
  get_output_path E input_path output_dir profile_name quality_val w2 = (Return (Some p2), w2') ->
  p1 = p2.
Proof.
  intros Hsec H1 H2.
  assert (Hname : output_name E input_path output_dir profile_name quality_val (clock w1)
                  = output_name E input_path output_dir profile_name quality_val (clock w2)).
  { unfold output_name. by rewrite Hsec. }
  rewrite get_output_path_run in H1, H2.
  assert (Hp1 : p1 = output_name E input_path output_dir profile_name quality_val (clock w1)).
  { destruct (_ || _) in H1; [by injection H1 as <- _|].
    destruct (os_makedirs_check E output_dir) in H1; [by injection H1 as <- _|done]. }
  assert (Hp2 : p2 = output_name E input_path output_dir profile_name quality_val (clock w2)).
  { destruct (_ || _) in H2; [by injection H2 as <- _|].
    destruct (os_makedirs_check E output_dir) in H2; [by injection H2 as <- _|done]. }
  congruence.
Qed.

(** ** What the compressors leave alone *)

Lemma keeps_ret {A} (a : A) : keeps_file_system (ret a).
Proof. by intros w. Qed.

Lemma keeps_raise {A} (e : exn) : keeps_file_system (@raise A e).
Proof. by intros w. Qed.

Lemma keeps_bind {A B} (m : M A) (k : A -> M B) :
  keeps_file_system m -> (forall a, keeps_file_system (k a)) ->
  keeps_file_system (bind m k).
Proof.
  intros Hm Hk w. unfold bind. specialize (Hm w).
  destruct (m w) as [[a|e] w1]; cbn [snd] in *; [|done].
  by rewrite (Hk a w1).
Qed.

Lemma keeps_try_except {A} (cls : exn -> bool) (body : M A) (handler : exn -> M A) :
  keeps_file_system body -> (forall e, keeps_file_system (handler e)) ->
  keeps_file_system (try_except cls body handler).
Proof.
  intros Hb Hh w. unfold try_except. specialize (Hb w).
  destruct (body w) as [[a|e] w1]; cbn [snd] in *; [done|].
  destruct (cls e); [|done]. by rewrite (Hh e w1).
Qed.

Lemma keeps_for_loop {A S} (body : S -> A -> M S) (l : list A) :
  (forall s x, keeps_file_system (body s x)) ->
  forall s, keeps_file_system (for_loop body s l).
Proof.
  intros Hb. induction l as [|x l IH]; intros s; cbn [for_loop].
  - apply keeps_ret.
  - apply keeps_bind; [apply Hb | exact IH].
Qed.

Lemma keeps_lift_outcome {A} (o : outcome A) : keeps_file_system (lift_outcome o).
Proof. destruct o; [apply keeps_ret | apply keeps_raise]. Qed.

Lemma keeps_get_doc (doc : nat) : keeps_file_system (get_doc doc).
Proof.
  intros w. unfold get_doc. destruct (heap w !! doc) as [d|]; [|done].
  by destruct (is_closed d).
Qed.

Lemma keeps_put_doc (doc : nat) (d : Document) : keeps_file_system (put_doc doc d).
Proof. by intros w. Qed.

Lemma keeps_print (l : Line) : keeps_file_system (print l).
Proof. by intros w. Qed.

Lemma keeps_close (doc : nat) : keeps_file_system (close doc).
Proof. intros w. unfold close. by destruct (heap w !! doc). Qed.

Lemma keeps_doc_len (doc : nat) : keeps_file_system (doc_len doc).
Proof. apply keeps_bind; [apply keeps_get_doc | intros d; apply keeps_ret]. Qed.

Lemma keeps_doc_pages (doc : nat) : keeps_file_system (doc_pages doc).
Proof. apply keeps_bind; [apply keeps_get_doc | intros d; apply keeps_ret]. Qed.

Lemma keeps_recompress_image (E : Externals) (doc : nat) (quality xref : Z) :
  keeps_file_system (recompress_image E doc quality xref).
Proof.
  unfold recompress_image, extract_image, PIL_Image_open, PIL_save_jpeg, update_image.
  apply keeps_bind.
  { apply keeps_bind; [apply keeps_get_doc|]. intros d.
    destruct (objects d !! xref); [apply keeps_ret | apply keeps_raise]. }
  intros image_bytes. apply keeps_bind; [apply keeps_lift_outcome|].
  intros pil_img. apply keeps_bind; [apply keeps_lift_outcome|].
  intros img_buffer. apply keeps_bind; [apply keeps_get_doc|].
  intros d. apply keeps_bind; [apply keeps_lift_outcome|].
  intros _. apply keeps_put_doc.
Qed.

Lemma keeps_compress_smart (E : Externals) (doc : nat) (quality : Z) :
  keeps_file_system (compress_smart E doc quality).
Proof.
  unfold compress_smart. apply keeps_bind; [apply keeps_doc_pages|]. intros pgs.
  apply keeps_bind.
  - apply keeps_for_loop. intros [c t] [page_num page]. unfold smart_page.
    apply keeps_bind; [apply keeps_doc_len|]. intros n.
    apply keeps_bind; [apply keeps_print|]. intros _.
    apply keeps_for_loop. intros [c' t'] [img_index img]. unfold smart_image.
    apply keeps_try_except.
    + apply keeps_bind; [apply keeps_recompress_image | intros _; apply keeps_ret].
    + intros _. apply keeps_ret.
  - intros [image_count total_images].
    apply keeps_bind; [apply keeps_print | intros _; apply keeps_ret].
Qed.

Lemma keeps_compress_aggressive (E : Externals) (doc : nat) (quality : Z) :
  keeps_file_system (compress_aggressive E doc quality).
Proof.
  unfold compress_aggressive. apply keeps_bind; [by intros w|]. intros output_doc.
  apply keeps_bind; [apply keeps_doc_pages|]. intros pgs.
  apply keeps_bind; [| intros _; apply keeps_ret].
  apply keeps_for_loop. intros [] [page_num page]. unfold aggressive_page.
  apply keeps_bind; [apply keeps_doc_len|]. intros n.
  apply keeps_bind; [apply keeps_print|]. intros _.
  apply keeps_bind.
  { unfold rasterize_page, get_pixmap_ppm, PIL_Image_open, PIL_save_jpeg.
    apply keeps_bind.
    - apply keeps_bind; [apply keeps_get_doc | intros d; apply keeps_lift_outcome].
    - intros pix. apply keeps_bind; [apply keeps_lift_outcome|].
      intros img. apply keeps_lift_outcome. }
  intros img_buffer. apply keeps_bind.
  { unfold new_page. apply keeps_bind; [apply keeps_get_doc|]. intros d.
    apply keeps_bind; [apply keeps_put_doc | intros _; apply keeps_ret]. }
  intros pno. unfold insert_image. apply keeps_bind; [apply keeps_get_doc|].
  intros d. destruct (pages d !! pno); [apply keeps_put_doc | apply keeps_raise].
Qed.

(** X3: the compressors never touch the file system.  Whatever the
    document, its state and the outcome of the black boxes, and whether they
    return or raise, [compress_smart] and [compress_aggressive] leave every
    file and every directory as it was: only [Document.save], called by
    [main], writes. *)
Theorem compressors_keep_file_system (E : Externals) (doc : nat) (quality : Z)
    (w : World) :
  files (compress_smart E doc quality w).2 = files w
  /\ dirs (compress_smart E doc quality w).2 = dirs w
  /\ files (compress_aggressive E doc quality w).2 = files w
  /\ dirs (compress_aggressive E doc quality w).2 = dirs w.
Proof.
  pose proof (keeps_compress_smart E doc quality w) as Hs.
  pose proof (keeps_compress_aggressive E doc quality w) as Ha.
  unfold file_system in Hs, Ha. injection Hs as Hs1 Hs2. injection Ha as Ha1 Ha2.
  done.
Qed.

(** ** The [try] statement of [main] *)

(** The [try] body on an open input document: it returns or raises an
    [Exception]; the input document stays open under its handle, with its
    pages; no file other than the output path and no directory changes; when
    it returns, the output file exists. *)
Lemma main_process_run (E : Externals) (args : Args) (doc : nat) (quality : Z)
    (output_path : string) (w : World) (d : Document) :
  heap w !! doc = Some d -> is_closed d = false ->
  exists (r : result unit) (w' : World),
    main_process E args doc quality output_path w = (r, w')
    /\ raises_exceptions_only r
    /\ (exists d', heap w' !! doc = Some d' /\ is_closed d' = false /\ pages d' = pages d)
    /\ same_files_but output_path w w'
    /\ dirs w' = dirs w
    /\ (r = Return tt -> is_Some (files w' !! output_path)).
Proof.
  intros Hd Hc. unfold main_process. destruct (mode args).
  - (* smart *)
    unfold bind at 1. unfold print at 1. unfold bind at 1.
    rewrite (compress_smart_run E doc quality _ d); [| exact Hd | exact Hc].
    pose proof (smart_pass_closed E quality (image_refs d) d) as Hc'.
    pose proof (smart_pass_pages E quality (image_refs d) d) as Hp'.
    set (d' := (smart_pass E quality (image_refs d) d).2) in *.
    unfold save, bind.
    rewrite (get_doc_open _ doc d');
      [| cbn [heap set_heap set_stdout]; by rewrite lookup_insert_eq | congruence].
    assert (Hdoc : forall fs out, exists d0,
               heap (set_files fs (set_stdout out (set_heap (<[doc := d']> (heap w)) w)))
                 !! doc = Some d0 /\ is_closed d0 = false /\ pages d0 = pages d).
    { intros fs out. exists d'. cbn [heap set_heap set_stdout set_files].
      rewrite lookup_insert_eq. split; [done|]. split; congruence. }
    destruct (pdf_write E d') as [data|msg [data|]]; eexists _, _;
      (split; [reflexivity|]).
    + split; [done|]. split; [apply (Hdoc _ _)|]. split.
      { intros p Hp. cbn [files set_files set_stdout set_heap]. by rewrite lookup_insert_ne. }
      split; [done|]. intros _. cbn [files set_files]. rewrite lookup_insert_eq. eauto.
    + split; [done|]. split; [apply (Hdoc _ _)|]. split.
      { intros p Hp. cbn [files set_files set_stdout set_heap]. by rewrite lookup_insert_ne. }
      split; [done|]. by intros [=].
    + split; [done|]. split.
      { exists d'. cbn [heap set_heap set_stdout]. rewrite lookup_insert_eq.
        split; [done|]. split; congruence. }
      split; [by intros p Hp|]. split; [done|]. by intros [=].
  - (* aggressive *)
    unfold bind at 1. unfold print at 1. unfold bind at 1.
    pose proof (keeps_compress_aggressive E doc quality
                  (set_stdout (stdout w ++ [RunningAggressive]) w)) as Hfs.
    destruct (compress_aggressive_run E d quality doc
                (set_stdout (stdout w ++ [RunningAggressive]) w) Hd Hc)
      as (w1 & dout & Hrun & Hne & Hheap & Hopen & Hfiles & _).
    rewrite Hrun in Hfs |- *. unfold file_system in Hfs.
    cbn [heap files dirs set_stdout snd] in Hheap, Hfiles, Hne, Hfs.
    injection Hfs as _ Hdirs.
    assert (Hdoc1 : heap w1 !! doc = Some d).
    { rewrite Hheap. by rewrite lookup_insert_ne. }
    destruct (aggressive_pass E d quality (pages d) (mkDocument [] ∅ false)) as [x|msg].
    + assert (Hout : heap w1 !! fresh (dom (heap w)) = Some dout).
      { rewrite Hheap. by rewrite lookup_insert_eq. }
      cbn [heap set_stdout]. unfold bind at 1. unfold save at 1. unfold bind at 1.
      rewrite (get_doc_open w1 _ dout Hout Hopen).
      destruct (pdf_write E dout) as [data|msg [data|]].
      * unfold close. cbn [heap set_files]. rewrite Hout.
        eexists _, _. split; [reflexivity|]. split; [done|]. split.
        { exists d. cbn [heap set_heap set_files]. rewrite lookup_insert_ne by done.
          done. }
        split.
        { intros p Hp. cbn [files set_heap set_files]. rewrite lookup_insert_ne by done.
          by rewrite Hfiles. }
        split; [done|]. intros _. cbn [files set_heap set_files].
        rewrite lookup_insert_eq. eauto.
      * eexists _, _. split; [reflexivity|]. split; [done|]. split; [by exists d|].
        split.
        { intros p Hp. cbn [files set_files]. rewrite lookup_insert_ne by done.
          by rewrite Hfiles. }
        split; [done|]. by intros [=].
      * eexists _, _. split; [reflexivity|]. split; [done|]. split; [by exists d|].
        split; [intros p Hp; by rewrite Hfiles|]. split; [done|]. by intros [=].
    + eexists _, _. split; [reflexivity|]. split; [done|]. split; [by exists d|].
      split; [intros p Hp; by rewrite Hfiles|]. split; [done|]. by intros [=].
Qed.

(** The [finally] clause on an open input document: it closes the document
    when it has a page and changes nothing else. *)
Lemma main_finally_run (doc : nat) (w : World) (d : Document) :
  heap w !! doc = Some d -> is_closed d = false ->
  exists w' : World,
    (let* b := doc_truthy doc in if b then close doc else ret tt) w = (Return tt, w')
    /\ files w' = files w /\ dirs w' = dirs w /\ stdout w' = stdout w
    /\ (forall h, h <> doc -> heap w' !! h = heap w !! h)
    /\ heap w' !! doc
       = Some (mkDocument (pages d) (objects d) (negb (Nat.eqb (length (pages d)) 0))).
Proof.
  intros Hd Hc. unfold doc_truthy. unfold bind at 1. unfold bind at 1.
  rewrite (doc_len_open w doc d Hd Hc). unfold ret at 1.
  destruct (Nat.eqb (length (pages d)) 0) eqn:Hlen; cbn [negb].
  - exists w. split; [reflexivity|]. repeat split; try done.
    rewrite Hd. destruct d as [pgs objs cl]. cbn in *. by rewrite Hc.
  - unfold close. rewrite Hd. eexists. split; [reflexivity|].
    cbn [files dirs stdout heap set_heap]. repeat split; try done.
    + intros h Hh. by rewrite lookup_insert_ne.
    + by rewrite lookup_insert_eq.
Qed.

(** The whole [try] statement, lines 215-237. *)
Lemma main_try_run (E : Externals) (args : Args) (quality : Z) (output_path : string)
    (w : World) :
  exists (success : bool) (w' : World),
    main_try E args quality output_path w = (Return success, w')
    /\ same_files_but output_path w w'
    /\ dirs w' = dirs w
    /\ (success = true -> is_Some (files w' !! output_path))
    /\ match files w !! input_file args with
       | None => success = false /\ heap w' = heap w /\ files w' = files w
       | Some data =>
           match pdf_parse E data with
           | Failed _ => success = false /\ heap w' = heap w /\ files w' = files w
           | Done (pgs, objs) =>
               exists d' : Document,
                 heap w' !! fresh (dom (heap w)) = Some d'
                 /\ pages d' = pgs
                 /\ is_closed d' = negb (Nat.eqb (length pgs) 0)
           end
       end.
Proof.
  unfold main_try. unfold bind at 1. unfold try_except at 1. unfold bind at 1.
  unfold fitz_open.
  destruct (files w !! input_file args) as [data|] eqn:Hfile.
  2:{ cbn [is_Exception]. unfold ret at 1. unfold bind, print, ret.
      eexists _, _. split; [reflexivity|]. split; [by intros p Hp|].
      split; [done|]. split; [by intros [=]|]. done. }
  destruct (pdf_parse E data) as [[pgs objs]|msg] eqn:Hparse.
  2:{ cbn [is_Exception]. unfold ret at 1. unfold bind, print, ret.
      eexists _, _. split; [reflexivity|]. split; [by intros p Hp|].
      split; [done|]. split; [by intros [=]|]. done. }
  unfold new_doc. unfold ret at 1.
  set (doc := fresh (dom (heap w))).
  set (d0 := mkDocument pgs objs false).
  set (w1 := set_heap (<[doc := d0]> (heap w)) w).
  assert (Hd0 : heap w1 !! doc = Some d0).
  { unfold w1. cbn [heap set_heap]. by rewrite lookup_insert_eq. }
  destruct (main_process_run E args doc quality output_path w1 d0 Hd0 eq_refl)
    as (r & w2 & Hrun & Hexn & (d2 & Hd2 & Hc2 & Hp2) & Hframe & Hdirs & Hsaved).
  unfold try_finally, try_except. unfold bind at 1. rewrite Hrun.
  destruct r as [[]|e].
  - unfold ret at 1.
    destruct (main_finally_run doc w2 d2 Hd2 Hc2)
      as (w3 & Hfin & Hf3 & Hdir3 & _ & _ & Hdoc3).
    rewrite Hfin. eexists _, _. split; [reflexivity|].
    split; [intros p Hp; rewrite Hf3; by apply Hframe|].
    split; [by rewrite Hdir3, Hdirs|]. split; [intros _; rewrite Hf3; by apply Hsaved|].
    eexists. split; [exact Hdoc3|]. cbn [pages is_closed]. by rewrite Hp2.
  - cbn [raises_exceptions_only] in Hexn. rewrite Hexn.
    unfold bind at 1. unfold print at 1. unfold ret at 1.
    set (w2' := set_stdout (stdout w2 ++ [FatalError (exn_str e)]) w2).
    assert (Hd2' : heap w2' !! doc = Some d2) by done.
    destruct (main_finally_run doc w2' d2 Hd2' Hc2)
      as (w3 & Hfin & Hf3 & Hdir3 & _ & _ & Hdoc3).
    rewrite Hfin. eexists _, _. split; [reflexivity|].
    split; [intros p Hp; rewrite Hf3; by apply Hframe|].
    split; [rewrite Hdir3; unfold w2'; cbn [dirs set_stdout]; by rewrite Hdirs|].
    split; [by intros [=]|].
    eexists. split; [exact Hdoc3|]. cbn [pages is_closed]. by rewrite Hp2.
Qed.

(** X4: no [Exception] of opening, compressing or saving escapes the [try]
    statement of [main].  Whatever the arguments, the world and the black
    boxes do, lines 215-237 end with
    [success] bound to a boolean; [success] is true only if the output file
    exists afterwards; and no file other than the output path and no
    directory has changed. *)
Theorem try_statement_catches_everything (E : Externals) (args : Args) (quality : Z)
    (output_path : string) (w : World) :
  exists (success : bool) (w' : World),
    main_try E args quality output_path w = (Return success, w')
    /\ (success = true -> is_Some (files w' !! output_path))
    /\ (forall p : string, p <> output_path -> files w' !! p = files w !! p)
    /\ dirs w' = dirs w.
Proof.
  destruct (main_try_run E args quality output_path w)
    as (success & w' & Hrun & Hframe & Hdirs & Hsaved & _).
  exists success, w'. done.
Qed.

(** X5: the input document is closed on every way out of the [try]
    statement.  When the input file holds a document with at least one page,
    the document object [fitz.open] created for it is closed after lines
    215-237, in either mode, whether compression and saving succeeded or
    raised. *)
Theorem input_document_closed (E : Externals) (args : Args) (quality : Z)
    (output_path : string) (w : World) (data : bytes) (pgs : list Page)
    (objs : gmap Z bytes) :
  files w !! input_file args = Some data ->
  pdf_parse E data = Done (pgs, objs) ->
  pgs <> [] ->
  exists d' : Document,
    heap (main_try E args quality output_path w).2 !! fresh (dom (heap w)) = Some d'
    /\ pages d' = pgs
    /\ is_closed d' = true.
Proof.
  intros Hfile Hparse Hpgs.
  destruct (main_try_run E args quality output_path w)
    as (success & w' & Hrun & _ & _ & _ & Hdoc).
  rewrite Hfile, Hparse in Hdoc. destruct Hdoc as (d' & Hd' & Hp' & Hc').
  rewrite Hrun. exists d'. split; [done|]. split; [done|].
  rewrite Hc'. by destruct pgs.
Qed.

(** X6: an input that cannot be opened fails the run cleanly.  When
    [fitz.open] raises on the input file, the [try] statement prints the
    fatal error with the message of the exception and yields
    [success = False]; no document object was created and no file was
    written. *)
Theorem unreadable_input_fails_cleanly (E : Externals) (args : Args) (quality : Z)
    (output_path : string) (w : World) (data : bytes) (msg : string) :
  files w !! input_file args = Some data ->
  pdf_parse E data = Failed msg ->
  main_try E args quality output_path w
  = (Return false, set_stdout (stdout w ++ [FatalError msg]) w).
Proof.
  intros Hfile Hparse. unfold main_try, bind, try_except, fitz_open.
  rewrite Hfile, Hparse. reflexivity.
Qed.

(** ** The whole run *)

Lemma select_quality_cases (args : Args) (w : World) :
  (exists (q : Z) (name : string),
      select_quality args w = (Return (q, name), w)
      /\ 1 <= q <= 95
      /\ (quality args = Some q /\ name = "custom"%string
          \/ q = COMPRESSION_PROFILES (profile args) /\ name = profile_key (profile args)))
  \/ select_quality args w
     = (Raise (SystemExit 1), set_stdout (stdout w ++ [ErrorQuality]) w).
Proof.
  assert (Hprofile : 1 <= COMPRESSION_PROFILES (profile args) <= 95).
  { destruct (profile args); cbn; lia. }
  unfold select_quality, int_bool. destruct (quality args) as [q|].
  - destruct (q =? 0) eqn:H0; cbn [negb].
    + left. eexists _, _. split; [reflexivity|]. split; [done|]. by right.
    + destruct ((1 <=? q) && (q <=? 95)) eqn:Hr; cbn [negb].
      * left. exists q, "custom"%string. split; [reflexivity|]. split; [lia|]. by left.
      * by right.
  - left. eexists _, _. split; [reflexivity|]. split; [done|]. by right.
Qed.

(** The report, lines 239-257, after a [try] statement that ended with
    [success]: it returns, or [os.remove] raises because the output path is a
    directory; only the output path can change. *)
Lemma main_report_run (success : bool) (output_path : string)
    (original_size_mb : Q) (w : World) :
  (success = true -> is_Some (files w !! output_path)) ->
  exists (r : result unit) (w' : World),
    main_report success output_path original_size_mb w = (r, w')
    /\ (r = Return tt \/ exists msg, r = Raise (OSError msg))
    /\ same_files_but output_path w w'
    /\ dirs w' = dirs w
    /\ heap w' = heap w.
Proof.
  intros Hsaved. destruct success.
  - destruct (Hsaved eq_refl) as [data Hf].
    rewrite (main_report_success output_path original_size_mb w data Hf).
    eexists _, _. split; [reflexivity|]. split; [by left|]. by split.
  - unfold main_report, bind, os_path_exists, print. cbn [andb files dirs set_stdout].
    destruct (files w !! output_path) as [data|] eqn:Hf.
    + rewrite bool_decide_eq_true_2 by eauto. cbn [orb]. unfold os_remove.
      cbn [files set_stdout]. rewrite Hf.
      eexists _, _. split; [reflexivity|]. split; [by left|]. split; [|done].
      intros p Hp. cbn [files set_files]. by rewrite lookup_delete_ne.
    + rewrite bool_decide_eq_false_2 by (by intros [? ?]). cbn [orb].
      destruct (bool_decide (output_path ∈ dirs w)).
      * unfold os_remove. cbn [files set_stdout]. rewrite Hf.
        eexists _, _. split; [reflexivity|]. split; [right; eauto|]. by split.
      * eexists _, _. split; [reflexivity|]. split; [by left|]. by split.
Qed.

(** [main] as a whole: how it can end and what it can have changed. *)
Lemma main_run (E : Externals) (args : Args) (w : World) :
  exists (r : result unit) (w' : World),
    main E args w = (r, w')
    /\ (r = Return tt \/ r = Raise (SystemExit 1) \/ exists msg, r = Raise (OSError msg))
    /\ (exists path : string, same_files_but path w w')
    /\ (dirs w' = dirs w
        \/ (os_path_exists (output_dir args) w).1 = Return false
           /\ (dirs w' = list_to_set (os_makedirs_created E (output_dir args) (dirs w))
                         ∪ dirs w
               \/ dirs w' = {[output_dir args]}
                            ∪ (list_to_set (os_makedirs_created E (output_dir args) (dirs w))
                               ∪ dirs w))).
Proof.
  unfold main. unfold bind at 1. unfold os_path_isfile at 1.
  destruct (files w !! input_file args) as [data|] eqn:Hin.
  2:{ rewrite bool_decide_eq_false_2 by (by intros [? ?]). cbn [negb].
      unfold bind, print, sys_exit, raise.
      eexists _, _. split; [reflexivity|]. split; [by right; left|].
      split; [by exists EmptyString|by left]. }
  rewrite bool_decide_eq_true_2 by eauto. cbn [negb].
  unfold bind at 1. unfold ret at 1. unfold bind at 1.
  destruct (select_quality_cases args w) as [(q & name & Hsel & _ & _)|Hsel]; rewrite Hsel.
  2:{ eexists _, _. split; [reflexivity|]. split; [by right; left|].
      split; [by exists EmptyString|by left]. }
  unfold bind at 1. unfold print at 1. unfold bind at 1.
  rewrite get_output_path_run. cbn [files dirs clock set_stdout].
  set (name0 := output_name E (input_file args) (output_dir args) name q (clock w)).
  assert (Hrest : forall w0 : World,
             files w0 = files w ->
             exists (r : result unit) (w' : World),
               match name0 with
               | EmptyString => sys_exit 1
               | String _ _ as output_path =>
                   let* size := os_path_getsize (input_file args) in
                   print (OriginalSize (size_mb size)) ;;
                   let* success := main_try E args q output_path in
                   main_report success output_path (size_mb size)
               end w0 = (r, w')
               /\ (r = Return tt \/ r = Raise (SystemExit 1)
                   \/ exists msg, r = Raise (OSError msg))
               /\ same_files_but name0 w w'
               /\ dirs w' = dirs w0).
  { intros w0 Hf0. destruct name0 as [|a0 path0] eqn:Hname.
    - eexists _, _. split; [reflexivity|]. split; [by right; left|].
      split; [intros p Hp; by rewrite Hf0 | done].
    - unfold bind at 1. unfold os_path_getsize at 1. rewrite Hf0, Hin.
      unfold bind at 1. unfold print at 1. unfold bind at 1.
      destruct (main_try_run E args q (String a0 path0)
                  (set_stdout (stdout w0 ++ [OriginalSize (size_mb (Z.of_nat (length data)))]) w0))
        as (success & w1 & Htry & Hframe1 & Hdirs1 & Hsaved & _).
      rewrite Htry.
      destruct (main_report_run success (String a0 path0)
                  (size_mb (Z.of_nat (length data))) w1 Hsaved)
        as (r & w2 & Hrep & Hr & Hframe2 & Hdirs2 & _).
      exists r, w2. split; [exact Hrep|]. split; [destruct Hr; auto|].
      split.
      + intros p Hp. rewrite (Hframe2 p Hp), (Hframe1 p Hp).
        cbn [files set_stdout]. by rewrite Hf0.
      + by rewrite Hdirs2, Hdirs1. }
  unfold os_path_exists. cbn [fst].
  destruct (bool_decide (is_Some (files w !! output_dir args))
            || bool_decide (output_dir args ∈ dirs w)).
  - destruct (Hrest (set_stdout (stdout w ++ [Banner (os_path_basename E (input_file args))
                                               (mode args) name q (output_dir args)]) w)
                eq_refl) as (r & w' & Hrun & Hr & Hframe & Hdirs).
    exists r, w'. split; [exact Hrun|]. split; [exact Hr|].
    split; [by exists name0 | by left].
  - destruct (os_makedirs_check E (output_dir args)) as [[]|msg].
    + match goal with
      | |- context [match name0 with EmptyString => _ | String _ _ => _ end ?w0] =>
          destruct (Hrest w0 eq_refl) as (r & w' & Hrun & Hr & Hframe & Hdirs)
      end.
      exists r, w'. split; [exact Hrun|]. split; [exact Hr|].
      split; [by exists name0 |]. right. split; [done|]. right. exact Hdirs.
    + eexists _, _. split; [reflexivity|]. split; [by right; left|].
      split; [by exists EmptyString |]. right. split; [done|]. by left.
Qed.

(** X7: once the command line is parsed, the exit status of the process is
    0 or 1.  For every namespace [parse_args] returns, [main] either
    returns, or ends by [sys.exit(1)], or lets an [OSError] of [os.remove]
    reach the top; nothing else can leave it. *)
Theorem exit_status_zero_or_one (E : Externals) (args : Args) (w : World) :
  (run E args w).1 = 0 \/ (run E args w).1 = 1.
Proof.
  destruct (main_run E args w) as (r & w' & Hrun & Hr & _).
  unfold run. rewrite Hrun.
  destruct Hr as [-> | [-> | [msg ->]]]; cbn; auto.
Qed.

(** X8: a run changes at most one file, removes no directory and adds only
    what [os.makedirs] made for the output directory.  Whatever the
    arguments and the outcome, there is one path such that every other path
    holds after the run what it held before.  When the output directory
    exists the directories are unchanged; otherwise they are those before
    the run, with the directories [os.makedirs] made on the way and, when it
    did not raise, the output directory. *)
Theorem run_changes_one_file_at_most (E : Externals) (args : Args) (w : World) :
  (exists path : string,
      forall p : string, p <> path -> files (run E args w).2 !! p = files w !! p)
  /\ dirs w ⊆ dirs (run E args w).2
  /\ dirs (run E args w).2
       ⊆ {[output_dir args]}
         ∪ (list_to_set (os_makedirs_created E (output_dir args) (dirs w)) ∪ dirs w)
  /\ ((os_path_exists (output_dir args) w).1 = Return true ->
      dirs (run E args w).2 = dirs w).
Proof.
  destruct (main_run E args w) as (r & w' & Hrun & Hr & [path Hframe] & Hdirs).
  assert (Hw : (run E args w).2 = w').
  { unfold run. rewrite Hrun. by destruct Hr as [-> | [-> | [msg ->]]]. }
  rewrite Hw. split; [by exists path|].
  destruct Hdirs as [-> | [Hmissing [-> | ->]]].
  - split; [done|]. split; [|done].
    etrans; [apply union_subseteq_r | apply union_subseteq_r].
  - split; [apply union_subseteq_r|]. split; [apply union_subseteq_r|].
    intros Hthere. congruence.
  - split; [etrans; [apply union_subseteq_r | apply union_subseteq_r]|].
    split; [done|]. intros Hthere. congruence.
Qed.

(** X9: a missing input file ends the run at once.  When the input path is
    not a file, the process prints the error naming the path and exits with
    status 1; nothing else in the world has changed, whatever the other
    arguments are. *)
Theorem missing_input_exits_early (E : Externals) (args : Args) (w : World) :
  files w !! input_file args = None ->
  run E args w = (1, set_stdout (stdout w ++ [ErrorNotFound (input_file args)]) w).
Proof.
  intros Hin. unfold run, main, bind, os_path_isfile.
  rewrite Hin. rewrite bool_decide_eq_false_2 by (by intros [? ?]). reflexivity.
Qed.

(** X10: when the output directory is missing and [os.makedirs] raises, the
    run ends with status 1 after the banner and the error of
    [get_output_path]: the input is not opened and no file is created; the
    directories [os.makedirs] made before the error are all that was
    added. *)
Theorem uncreatable_output_dir_exits (E : Externals) (args : Args) (w : World)
    (data : bytes) (q : Z) (name msg : string) :
  files w !! input_file args = Some data ->
  select_quality args w = (Return (q, name), w) ->
  files w !! output_dir args = None ->
  output_dir args ∉ dirs w ->
  os_makedirs_check E (output_dir args) = Failed msg ->
  run E args w
  = (1, set_stdout (stdout w ++ [Banner (os_path_basename E (input_file args))
                                   (mode args) name q (output_dir args);
                                 ErrorCreateDir (output_dir args) msg])
          (set_dirs (list_to_set (os_makedirs_created E (output_dir args) (dirs w))
                     ∪ dirs w) w)).
Proof.
  intros Hin Hsel Hnofile Hnodir Hmk. unfold run, main.
  unfold bind at 1. unfold os_path_isfile at 1. rewrite Hin.
  rewrite bool_decide_eq_true_2 by eauto. cbn [negb].
  unfold bind at 1. unfold ret at 1. unfold bind at 1. rewrite Hsel.
  unfold bind at 1. unfold print at 1. unfold bind at 1.
  rewrite get_output_path_run. cbn [files dirs set_stdout]. rewrite Hnofile, Hmk.
  rewrite bool_decide_eq_false_2 by (by intros [? ?]).
  rewrite bool_decide_eq_false_2 by done. cbn [orb].
  unfold sys_exit, raise, set_stdout, set_dirs. cbn [heap files dirs stdout clock].
  by rewrite <- app_assoc.
Qed.

(** X11: the quality handed to the compressors is always between 1 and 95.
    Whenever the selection of lines 187-195 returns, the quality it returns
    lies in 1..95 and nothing was printed or changed; the name is "custom"
    with the quality of [--quality], or the profile's name with the
    profile's quality. *)
Theorem selected_quality_in_range (args : Args) (w w' : World) (q : Z) (name : string) :
  select_quality args w = (Return (q, name), w') ->
  1 <= q <= 95
  /\ w' = w
  /\ (quality args = Some q /\ name = "custom"%string
      \/ q = COMPRESSION_PROFILES (profile args) /\ name = profile_key (profile args)).
Proof.
  intros Hsel.
  destruct (select_quality_cases args w) as [(q0 & name0 & Hsel0 & Hr & Hn)|Hsel0];
    rewrite Hsel0 in Hsel; [|done].
  by injection Hsel as <- <- <-.
Qed.

(** ** More on the smart compressor *)

(** X14: a document without images goes through smart mode untouched.  When
    no page of the open document lists an image, [compress_smart] returns 0
    and every document object is what it was. *)
Theorem smart_without_images_is_noop (E : Externals) (doc : nat) (quality : Z)
    (w : World) (d : Document) :
  heap w !! doc = Some d -> is_closed d = false ->
  image_refs d = [] ->
  (compress_smart E doc quality w).1 = Return 0%nat
  /\ heap (compress_smart E doc quality w).2 = heap w.
Proof.
  intros Hd Hc Hrefs. rewrite (compress_smart_run E doc quality w d Hd Hc).
  rewrite Hrefs. cbn [smart_pass fst snd heap set_heap set_stdout].
  split; [reflexivity|]. by apply insert_id.
Qed.

Lemma smart_pass_all_failed (E : Externals) (quality : Z) (xrefs : list Z) :
  (forall d x data, ~ is_Done (update_image_check E d x data)) ->
  forall d : Document, smart_pass E quality xrefs d = (0%nat, d).
Proof.
  intros Hupd. induction xrefs as [|x xs IH]; intros d; cbn [smart_pass]; [done|].
  assert (Hx : exists msg, recompressed E d quality x = Failed msg).
  { unfold recompressed. destruct (objects d !! x) as [b|]; [|eauto].
    destruct (Image_open E b) as [img|]; [|eauto].
    destruct (Image_save_jpeg E img quality) as [data|]; [|eauto].
    specialize (Hupd d x data).
    destruct (update_image_check E d x data); [by destruct Hupd | eauto]. }
  destruct Hx as [msg ->]. apply IH.
Qed.

(** X15: when every replacement raises, smart mode changes nothing and says
    so only in its count.  If [update_image] raises on every call, then on
    an open document [compress_smart] still returns: it returns 0, its
    summary line reads 0 out of the number of image references, and every
    document object is what it was. *)
Theorem smart_does_nothing_when_replacement_fails (E : Externals) (doc : nat)
    (quality : Z) (w : World) (d : Document) :
  heap w !! doc = Some d -> is_closed d = false ->
  (forall d' x data, ~ is_Done (update_image_check E d' x data)) ->
  (compress_smart E doc quality w).1 = Return 0%nat
  /\ last (stdout (compress_smart E doc quality w).2)
     = Some (InfoRecompressed 0 (length (image_refs d)))
  /\ heap (compress_smart E doc quality w).2 = heap w.
Proof.
  intros Hd Hc Hupd. rewrite (compress_smart_run E doc quality w d Hd Hc).
  rewrite (smart_pass_all_failed E quality (image_refs d) Hupd d).
  cbn [fst snd heap stdout set_heap set_stdout]. split; [reflexivity|].
  split; [by rewrite !app_assoc, last_snoc | by apply insert_id].
Qed.

(** ** More on the aggressive compressor *)

(** What [aggressive_pass] adds to the output document: one page per input
    page, without content stream, showing one image, the JPEG of the input
    page; the streams already there stay. *)
Lemma aggressive_pass_content (E : Externals) (d : Document) (quality : Z)
    (pgs : list Page) :
  forall (dout dout' : Document),
  aggressive_pass E d quality pgs dout = Done dout' ->
  (forall x s, objects dout !! x = Some s -> objects dout' !! x = Some s)
  /\ (forall i p', pages dout !! i = Some p' -> pages dout' !! i = Some p')
  /\ (forall i p, pgs !! i = Some p ->
        exists (p' : Page) (x : Z) (stream : bytes),
          pages dout' !! (length (pages dout) + i)%nat = Some p'
          /\ contents p' = []
          /\ images p' = [x]
          /\ rasterized E d quality p = Done stream
          /\ objects dout' !! x = Some stream).
Proof.
  induction pgs as [|p ps IH]; intros dout dout'; cbn [aggressive_pass].
  - intros [= <-]. split; [done|]. split; [done|]. by intros i p.
  - destruct (rasterized E d quality p) as [stream|msg] eqn:Hras; [|done].
    intros Hpass. destruct (IH _ _ Hpass) as (Hobj & Hpg & Hnew).
    assert (Hfresh : forall x s, objects dout !! x = Some s ->
                                 x <> fresh (dom (objects dout))).
    { intros x s Hx ->. apply (is_fresh (dom (objects dout))).
      apply elem_of_dom. eauto. }
    split; [|split].
    + intros x s Hx. apply Hobj. cbn [append_raster objects].
      rewrite lookup_insert_ne; [done|]. intros Heq. by apply (Hfresh x s Hx).
    + intros i p' Hi. apply Hpg. cbn [append_raster pages].
      by apply lookup_app_l_Some.
    + intros [|i] p0 Hp0; cbn in Hp0.
      * injection Hp0 as <-.
        exists (mkPage (mkRect 0 0 (width (rect p)) (height (rect p))) []
                  [fresh (dom (objects dout))]),
               (fresh (dom (objects dout))), stream.
        split.
        { apply Hpg. cbn [append_raster pages]. rewrite Nat.add_0_r.
          by apply list_lookup_middle. }
        split; [done|]. split; [done|]. split; [done|].
        apply Hobj. cbn [append_raster objects]. by rewrite lookup_insert_eq.
      * destruct (Hnew i p0 Hp0) as (p' & x & s & Hlook & Hrest).
        exists p', x, s. split; [|exact Hrest].
        cbn [append_raster pages] in Hlook. rewrite length_app in Hlook.
        cbn [length] in Hlook.
        by replace (length (pages dout) + S i)%nat
          with (length (pages dout) + 1 + i)%nat by lia.
Qed.

(** X17: the output of aggressive mode is one picture per page.  When
    [compress_aggressive] returns on an open document, each page of the
    output document has no content stream (no text, no vector graphics) and
    shows exactly one image, whose stream is the JPEG rendering of the input
    page at the same index. *)
Theorem aggressive_output_is_pictures (E : Externals) (doc : nat) (quality : Z)
    (w w' : World) (d : Document) (output_doc : nat) :
  heap w !! doc = Some d -> is_closed d = false ->
  compress_aggressive E doc quality w = (Return output_doc, w') ->
  exists dout : Document,
    heap w' !! output_doc = Some dout
    /\ forall (i : nat) (p : Page),
         pages d !! i = Some p ->
         exists (p' : Page) (x : Z) (stream : bytes),
           pages dout !! i = Some p'
           /\ contents p' = []
           /\ images p' = [x]
           /\ rasterized E d quality p = Done stream
           /\ objects dout !! x = Some stream.
Proof.
  intros Hd Hc Hret.
  destruct (compress_aggressive_run E d quality doc w Hd Hc)
    as (w1 & dout & Hrun & Hne & Hheap & Hopen & Hfiles & Hdone).
  rewrite Hrun in Hret.
  destruct (aggressive_pass E d quality (pages d) (mkDocument [] ∅ false))
    as [x|msg] eqn:Hpass; [|done].
  injection Hret as <- <-. rewrite (Hdone x eq_refl) in Hheap.
  exists x. rewrite Hheap. split; [by rewrite lookup_insert_eq|].
  destruct (aggressive_pass_content E d quality _ _ _ Hpass) as (_ & _ & Hnew).
  intros i p Hp. apply (Hnew i p Hp).
Qed.

(** X18: aggressive mode allocates its output document first and leaves it
    behind when it fails.  On an open input document, whether
    [compress_aggressive] returns or raises, the heap afterwards is the heap
    before plus one new, open document object; the input document and every
    other object are untouched. *)
Theorem aggressive_allocates_one_document (E : Externals) (doc : nat) (quality : Z)
    (w : World) (d : Document) :
  heap w !! doc = Some d -> is_closed d = false ->
  exists dout : Document,
    heap (compress_aggressive E doc quality w).2
    = <[fresh (dom (heap w)) := dout]> (heap w)
    /\ (fresh (dom (heap w)) ∉ dom (heap w))
    /\ is_closed dout = false
    /\ heap (compress_aggressive E doc quality w).2 !! doc = Some d.
Proof.
  intros Hd Hc.
  destruct (compress_aggressive_run E d quality doc w Hd Hc)
    as (w1 & dout & Hrun & Hne & Hheap & Hopen & _ & _).
  rewrite Hrun. cbn [snd]. exists dout. split; [exact Hheap|].
  split; [apply is_fresh|]. split; [exact Hopen|].
  rewrite Hheap. by rewrite lookup_insert_ne.
Qed.

(** ** More on the report *)

Lemma reduction_percent_formula (compressed original : Z) :
  0 < original ->
  (reduction_percent (size_mb compressed) (size_mb original)
   == (1 - inject_Z compressed / inject_Z original) * 100)%Q.
Proof.
  intros Hpos. unfold reduction_percent.
  destruct (Qlt_le_dec 0 (size_mb original)) as [_|Hle].
  - unfold size_mb. field. split.
    + intros H0. unfold Qeq in H0. simpl in H0. lia.
    + discriminate.
  - exfalso. apply (Qlt_irrefl 0). eapply Qlt_le_trans; [|exact Hle].
    by apply size_mb_pos.
Qed.

(** X19: the reported reduction is at most 100 and is negative when the
    output is larger than the input.  For an input of positive size the
    value of line 242 never exceeds 100; it is non-negative exactly when the
    output is no larger than the input, and negative exactly when the output
    is larger: a growth is reported as a negative reduction, not clamped. *)
Theorem reduction_percent_sign (compressed original : Z) :
  0 < original -> 0 <= compressed ->
  (reduction_percent (size_mb compressed) (size_mb original) <= 100)%Q
  /\ (compressed <= original <->
      (0 <= reduction_percent (size_mb compressed) (size_mb original))%Q)
  /\ (original < compressed <->
      (reduction_percent (size_mb compressed) (size_mb original) < 0)%Q).
Proof.
  intros Hpos Hc.
  pose proof (reduction_percent_formula compressed original Hpos) as Hf.
  destruct original as [|o|o]; try lia.
  split; [|split].
  - rewrite Hf. unfold Qle, Qmult, Qminus, Qplus, Qopp, Qdiv, Qinv, inject_Z. simpl. lia.
  - rewrite Hf. unfold Qle, Qmult, Qminus, Qplus, Qopp, Qdiv, Qinv, inject_Z. simpl. lia.
  - rewrite Hf. unfold Qlt, Qmult, Qminus, Qplus, Qopp, Qdiv, Qinv, inject_Z. simpl. lia.
Qed.

(** X20: a run that did not succeed leaves nothing under the output path.
    When [success] is false, or when it is true but no output file exists,
    the report prints the failure banner and afterwards the output path
    holds no file, every other file being as before (the output path not
    being a directory). *)
Theorem failed_report_leaves_no_output (success : bool) (output_path : string)
    (original_size_mb : Q) (w : World) :
  success = false \/ files w !! output_path = None ->
  output_path ∉ dirs w ->
  exists w' : World,
    main_report success output_path original_size_mb w = (Return tt, w')
    /\ stdout w' = stdout w ++ [ReportFailed]
    /\ files w' !! output_path = None
    /\ forall p : string, p <> output_path -> files w' !! p = files w !! p.
Proof.
  intros Hfail Hdir. unfold main_report. unfold bind at 1. unfold os_path_exists at 1.
  assert (Hcond : success && (bool_decide (is_Some (files w !! output_path))
                              || bool_decide (output_path ∈ dirs w)) = false).
  { destruct Hfail as [-> | Hnone]; [done|]. rewrite Hnone.
    rewrite bool_decide_eq_false_2 by (by intros [? ?]).
    rewrite bool_decide_eq_false_2 by done. by rewrite andb_false_r. }
  rewrite Hcond. unfold bind at 1. unfold print at 1. unfold bind at 1.
  unfold os_path_exists at 1. cbn [files dirs set_stdout].
  rewrite (bool_decide_eq_false_2 (output_path ∈ dirs w)) by done.
  rewrite orb_false_r. destruct (files w !! output_path) as [data|] eqn:Hf.
  - rewrite bool_decide_eq_true_2 by eauto. unfold os_remove.
    cbn [files set_stdout]. rewrite Hf.
    eexists. split; [reflexivity|]. cbn [files stdout set_files set_stdout].
    split; [done|]. split; [by rewrite lookup_delete_eq|].
    intros p Hp. by rewrite lookup_delete_ne.
  - rewrite bool_decide_eq_false_2 by (by intros [? ?]).
    eexists. split; [reflexivity|]. cbn [files stdout set_stdout]. done.
Qed.

(** X21: a successful aggressive run closes the output document.  When every
    page of the open input document rasterizes and [save] succeeds, the
    aggressive branch of the [try] body returns; the output file holds what
    [save] wrote and the output document, the one new object, is closed. *)
Theorem aggressive_success_closes_output (E : Externals) (args : Args) (doc : nat)
    (quality : Z) (output_path : string) (w : World) (d dout : Document) (data : bytes) :
  mode args = Aggressive ->
  heap w !! doc = Some d -> is_closed d = false ->
  aggressive_pass E d quality (pages d) (mkDocument [] ∅ false) = Done dout ->
  pdf_write E dout = Saved data ->
  exists w' : World,
    main_process E args doc quality output_path w = (Return tt, w')
    /\ files w' = <[output_path := data]> (files w)
    /\ heap w' = <[fresh (dom (heap w)) := mkDocument (pages dout) (objects dout) true]>
                   (heap w).
Proof.
  intros Hm Hd Hc Hpass Hsave. unfold main_process. rewrite Hm.
  unfold bind at 1. unfold print at 1. unfold bind at 1.
  destruct (compress_aggressive_run E d quality doc
              (set_stdout (stdout w ++ [RunningAggressive]) w) Hd Hc)
    as (w1 & dout' & Hrun & _ & Hheap & Hopen & Hfiles & Hdone).
  rewrite Hpass in Hrun. rewrite (Hdone dout Hpass) in *. rewrite Hrun.
  cbn [heap files set_stdout] in Hheap, Hfiles.
  assert (Hlook : heap w1 !! fresh (dom (heap w)) = Some dout).
  { rewrite Hheap. by rewrite lookup_insert_eq. }
  cbn [heap set_stdout]. unfold bind at 1. unfold save at 1. unfold bind at 1.
  rewrite (get_doc_open w1 _ dout Hlook Hopen). rewrite Hsave.
  unfold close. cbn [heap set_files]. rewrite Hlook.
  eexists. split; [reflexivity|]. cbn [files heap set_heap set_files].
  split; [by rewrite Hfiles|]. rewrite Hheap. by rewrite insert_insert_eq.
Qed.

(** ** The build script *)

Section BuildScript.

Variable B : Build.BuildExternals.

Lemma install_packages_calls (packages : list string) :
  forall w : Build.BuildWorld,
  exists n : nat,
    Build.calls (Build.install_packages B packages w).2
    = Build.calls w ++ map (Build.pip_install B) (take n packages)
    /\ ((Build.install_packages B packages w).1 = Build.Returned true ->
        n = length packages).
Proof.
  induction packages as [|package rest IH]; intros w; cbn [Build.install_packages].
  - exists 0%nat. cbn. by rewrite app_nil_r.
  - unfold Build.subprocess_check_call. cbn [Build.paths Build.calls Build.build_print].
    destruct (Build.check_call B (Build.pip_install B package) (Build.paths w))
      as [[| code |] paths'].
    + match goal with
      | |- context [Build.install_packages B rest ?w0] =>
          destruct (IH w0) as (n & Hcalls & Hall)
      end.
      exists (S n). split.
      * rewrite Hcalls. cbn [Build.calls Build.build_print take map].
        by rewrite <- app_assoc.
      * intros Htrue. cbn [length]. f_equal. by apply Hall.
    + exists 1%nat. cbn [snd fst Build.calls Build.build_print take map].
      rewrite take_0. split; [done|]. by intros [=].
    + exists 1%nat. cbn [snd fst Build.calls Build.build_print take map].
      rewrite take_0. split; [done|]. by intros [=].
Qed.

Lemma install_packages_stops (done rest : list string) (package : string) (code : Z) :
  (forall p ps, p ∈ done -> (Build.check_call B (Build.pip_install B p) ps).1 = Build.CallOk) ->
  (forall ps, (Build.check_call B (Build.pip_install B package) ps).1
              = Build.CalledProcessError code) ->
  forall w : Build.BuildWorld,
    (Build.install_packages B (done ++ package :: rest) w).1 = Build.Returned false
    /\ Build.calls (Build.install_packages B (done ++ package :: rest) w).2
       = Build.calls w ++ map (Build.pip_install B) (done ++ [package])
    /\ last (Build.printed (Build.install_packages B (done ++ package :: rest) w).2)
       = Some (Build.FailedToInstall package).
Proof.
  intros Hok Hfail. induction done as [|p done IH]; intros w;
    cbn [app Build.install_packages]; unfold Build.subprocess_check_call;
    cbn [Build.paths Build.calls Build.build_print].
  - specialize (Hfail (Build.paths w)).
    destruct (Build.check_call B (Build.pip_install B package) (Build.paths w))
      as [res paths']. cbn [fst] in Hfail. subst res.
    cbn [fst snd Build.calls Build.printed Build.build_print map app].
    split; [done|]. split; [done|]. by rewrite last_snoc.
  - pose proof (Hok p (Build.paths w) (list_elem_of_here p done)) as Hp.
    destruct (Build.check_call B (Build.pip_install B p) (Build.paths w))
      as [res paths']. cbn [fst] in Hp. subst res.
    match goal with
    | |- context [Build.install_packages B (done ++ package :: rest) ?w0] =>
        destruct (IH (fun q ps Hq => Hok q ps (list_elem_of_further q p done Hq)) w0)
          as (Hres & Hcalls & Hlast)
    end.
    split; [exact Hres|]. split; [|exact Hlast].
    rewrite Hcalls. cbn [Build.calls Build.build_print map]. by rewrite <- app_assoc.
Qed.

(** X22: installation stops at the first dependency that fails.  When the
    packages before [package] in PyMuPDF, Pillow, pyinstaller install and pip
    exits with a non-zero status for [package], [install_dependencies]
    returns [False]; the commands it ran are the pip commands for the
    packages up to and including [package], in order, and none for the
    packages after it; the last line printed names [package] as failed. *)
Theorem install_stops_at_first_failure (w : Build.BuildWorld)
    (done rest : list string) (package : string) (code : Z) :
  Build.required_packages = done ++ package :: rest ->
  (forall p ps, p ∈ done -> (Build.check_call B (Build.pip_install B p) ps).1 = Build.CallOk) ->
  (forall ps, (Build.check_call B (Build.pip_install B package) ps).1
              = Build.CalledProcessError code) ->
  (Build.install_dependencies B w).1 = Build.Returned false
  /\ Build.calls (Build.install_dependencies B w).2
     = Build.calls w ++ map (Build.pip_install B) (done ++ [package])
  /\ last (Build.printed (Build.install_dependencies B w).2)
     = Some (Build.FailedToInstall package).
Proof.
  intros Hsplit Hok Hfail. unfold Build.install_dependencies. rewrite Hsplit.
  destruct (install_packages_stops done rest package code Hok Hfail
              (Build.build_print Build.CheckingDependencies w))
    as (Hres & Hcalls & Hlast).
  split; [exact Hres|]. split; [exact Hcalls | exact Hlast].
Qed.

(** X23: a dependency that cannot be installed stops the build before
    PyInstaller.  When [install_dependencies] returns [False], the build ends
    with status 1 in the world [install_dependencies] left: [create_executable]
    was not run, so the only commands of the build are pip commands, and the
    closing banner is not printed. *)
Theorem failed_dependency_stops_build (w : Build.BuildWorld) :
  (Build.install_dependencies B (Build.build_print Build.BuildStarted w)).1
  = Build.Returned false ->
  Build.build_status B w = 1
  /\ (Build.build_main B w).2
     = (Build.install_dependencies B (Build.build_print Build.BuildStarted w)).2
  /\ exists n : nat,
       Build.calls (Build.build_main B w).2
       = Build.calls w ++ map (Build.pip_install B) (take n Build.required_packages).
Proof.
  intros Hfalse. unfold Build.build_status, Build.build_main.
  destruct (install_packages_calls Build.required_packages
              (Build.build_print Build.CheckingDependencies
                 (Build.build_print Build.BuildStarted w))) as (n & Hcalls & _).
  fold (Build.install_dependencies B (Build.build_print Build.BuildStarted w)) in Hcalls.
  destruct (Build.install_dependencies B (Build.build_print Build.BuildStarted w))
    as [[[]|e] w'] eqn:Hinst; cbn [fst snd] in *; try done.
  split; [done|]. split; [done|]. by exists n.
Qed.

(** X24: [create_executable] runs PyInstaller once, and only when the script
    is there.  Without [pdf_compressor.py] no command is run and no path
    changes.  With it exactly one command is run: the PyInstaller command
    line, to which [--icon icon.ico] is appended exactly when [icon.ico]
    exists. *)
Theorem create_executable_command (w : Build.BuildWorld) :
  (Build.SCRIPT_TO_BUNDLE ∉ Build.paths w ->
   Build.calls (Build.create_executable B w) = Build.calls w
   /\ Build.paths (Build.create_executable B w) = Build.paths w)
  /\ (Build.SCRIPT_TO_BUNDLE ∈ Build.paths w ->
      Build.calls (Build.create_executable B w)
      = Build.calls w
          ++ [Build.pyinstaller_command (bool_decide (Build.ICON_FILE ∈ Build.paths w))]).
Proof.
  unfold Build.create_executable, Build.os_path_exists.
  cbn [Build.paths Build.build_print]. split; intros Hscript.
  - by rewrite bool_decide_eq_false_2.
  - rewrite (bool_decide_eq_true_2 _ Hscript). cbn [negb].
    unfold Build.subprocess_check_call. cbn [Build.paths Build.calls Build.build_print].
    by destruct (Build.check_call B _ (Build.paths w)) as [[| code |] paths'].
Qed.

(** X25: once the dependencies are installed the build ends with status 0,
    whatever becomes of the executable.  When [install_dependencies] returns
    [True], the process prints the closing banner last and exits with status
    0, also when the script is missing or PyInstaller fails. *)
Theorem build_failure_exits_zero (w : Build.BuildWorld) :
  (Build.install_dependencies B (Build.build_print Build.BuildStarted w)).1
  = Build.Returned true ->
  Build.build_status B w = 0
  /\ last (Build.printed (Build.build_main B w).2) = Some Build.BuildFinished.
Proof.
  intros Htrue. unfold Build.build_status, Build.build_main.
  destruct (Build.install_dependencies B (Build.build_print Build.BuildStarted w))
    as [[[]|e] w'] eqn:Hinst; cbn [fst snd] in *; try done.
  split; [done|]. cbn [Build.printed Build.build_print]. by rewrite last_snoc.
Qed.

End BuildScript.

(** ** Instances of the further properties *)

Lemma output_path_same_second_witness :
  int_float (clock Demo.world0) = int_float (clock Demo.world0_later)
  /\ get_output_path Demo.demo "sample" "out" "medium" 40 Demo.world0
     = (Return (Some "out/sample__medium_q40_1700000000.pdf"%string),
        (get_output_path Demo.demo "sample" "out" "medium" 40 Demo.world0).2)
  /\ get_output_path Demo.demo "sample" "out" "medium" 40 Demo.world0_later
     = (Return (Some "out/sample__medium_q40_1700000000.pdf"%string),
        (get_output_path Demo.demo "sample" "out" "medium" 40 Demo.world0_later).2)
  /\ "out/sample__medium_q40_1700000000.pdf"%string
     = "out/sample__medium_q40_1700000000.pdf"%string.
Proof.
  split; [reflexivity|]. split; [vm_compute; reflexivity|].
  split; [vm_compute; reflexivity|].
  apply (output_path_same_second Demo.demo "sample" "out" "medium" 40
           Demo.world0 Demo.world0_later
           (get_output_path Demo.demo "sample" "out" "medium" 40 Demo.world0).2
           (get_output_path Demo.demo "sample" "out" "medium" 40 Demo.world0_later).2);
    vm_compute; reflexivity.
Defined.

Lemma input_document_closed_witness :
  files Demo.world0 !! input_file Demo.args_disk_full
  = Some [Byte.x03; Byte.x00; Byte.x00; Byte.x00]
  /\ pdf_parse Demo.demo [Byte.x03; Byte.x00; Byte.x00; Byte.x00]
     = Done ([Demo.page_a; Demo.page_b; Demo.page_c], Demo.sample_objects)
  /\ [Demo.page_a; Demo.page_b; Demo.page_c] <> []
  /\ exists d' : Document,
       heap (main_try Demo.demo Demo.args_disk_full 40 "out.pdf" Demo.world0).2
         !! fresh (dom (heap Demo.world0)) = Some d'
       /\ pages d' = [Demo.page_a; Demo.page_b; Demo.page_c]
       /\ is_closed d' = true.
Proof.
  split; [reflexivity|]. split; [reflexivity|]. split; [discriminate|].
  apply (input_document_closed Demo.demo Demo.args_disk_full 40 "out.pdf" Demo.world0
           [Byte.x03; Byte.x00; Byte.x00; Byte.x00]
           [Demo.page_a; Demo.page_b; Demo.page_c] Demo.sample_objects);
    [reflexivity | reflexivity | discriminate].
Defined.

Lemma unreadable_input_fails_cleanly_witness :
  files Demo.world_junk !! input_file Demo.args_junk = Some [Byte.x00; Byte.x01]
  /\ pdf_parse Demo.demo [Byte.x00; Byte.x01] = Failed "cannot open broken document"
  /\ main_try Demo.demo Demo.args_junk 40 "out.pdf" Demo.world_junk
     = (Return false,
        set_stdout (stdout Demo.world_junk ++ [FatalError "cannot open broken document"])
          Demo.world_junk).
Proof.
  split; [reflexivity|]. split; [reflexivity|].
  apply (unreadable_input_fails_cleanly Demo.demo Demo.args_junk 40 "out.pdf"
           Demo.world_junk [Byte.x00; Byte.x01] "cannot open broken document");
    reflexivity.
Defined.

Lemma missing_input_exits_early_witness :
  files Demo.world0 !! input_file Demo.args_missing = None
  /\ run Demo.demo Demo.args_missing Demo.world0
     = (1, set_stdout (stdout Demo.world0 ++ [ErrorNotFound "nowhere"]) Demo.world0).
Proof.
  split; [reflexivity|].
  apply (missing_input_exits_early Demo.demo Demo.args_missing Demo.world0). reflexivity.
Defined.

Lemma uncreatable_output_dir_exits_witness :
  files Demo.world0 !! input_file Demo.args_deep
  = Some [Byte.x01; Byte.x00; Byte.x00; Byte.x00; Byte.x00; Byte.x00; Byte.x00; Byte.x00]
  /\ select_quality Demo.args_deep Demo.world0
     = (Return (40, "medium"%string), Demo.world0)
  /\ files Demo.world0 !! output_dir Demo.args_deep = None
  /\ os_makedirs_check Demo.demo_readonly (output_dir Demo.args_deep)
     = Failed "Permission denied"
  /\ os_makedirs_created Demo.demo_readonly (output_dir Demo.args_deep) (dirs Demo.world0)
     = ["deep"%string]
  /\ run Demo.demo_readonly Demo.args_deep Demo.world0
     = (1, set_stdout (stdout Demo.world0
                       ++ [Banner "sample" Smart "medium" 40 "deep/out";
                           ErrorCreateDir "deep/out" "Permission denied"])
             (set_dirs (list_to_set
                          (os_makedirs_created Demo.demo_readonly (output_dir Demo.args_deep)
                             (dirs Demo.world0))
                        ∪ dirs Demo.world0) Demo.world0)).
Proof.
  split; [reflexivity|]. split; [reflexivity|]. split; [reflexivity|].
  split; [reflexivity|]. split; [reflexivity|].
  apply (uncreatable_output_dir_exits Demo.demo_readonly Demo.args_deep Demo.world0
           [Byte.x01; Byte.x00; Byte.x00; Byte.x00; Byte.x00; Byte.x00; Byte.x00; Byte.x00]
           40 "medium" "Permission denied"); try reflexivity.
  apply not_elem_of_empty.
Defined.

Lemma selected_quality_in_range_witness :
  select_quality Demo.args_quality_custom Demo.world0
  = (Return (75, "custom"%string), Demo.world0)
  /\ 1 <= 75 <= 95
  /\ Demo.world0 = Demo.world0
  /\ (quality Demo.args_quality_custom = Some 75 /\ "custom"%string = "custom"%string
      \/ 75 = COMPRESSION_PROFILES (profile Demo.args_quality_custom)
         /\ "custom"%string = profile_key (profile Demo.args_quality_custom)).
Proof.
  split; [reflexivity|].
  apply (selected_quality_in_range Demo.args_quality_custom Demo.world0 Demo.world0
           75 "custom"). reflexivity.
Defined.

Lemma select_quality_in_range_witness :
  quality Demo.args_quality_custom = Some 75
  /\ 1 <= 75 <= 95
  /\ select_quality Demo.args_quality_custom Demo.world0
     = (Return (75, "custom"%string), Demo.world0).
Proof.
  split; [reflexivity|]. split; [lia|].
  apply (select_quality_in_range Demo.args_quality_custom 75 Demo.world0);
    [reflexivity | lia].
Defined.

Lemma run_quality_rejected_witness :
  quality Demo.args_quality_high = Some 96
  /\ 96 <> 0
  /\ (run Demo.demo Demo.args_quality_high Demo.world0).1 = 1
  /\ files (run Demo.demo Demo.args_quality_high Demo.world0).2 = files Demo.world0
  /\ dirs (run Demo.demo Demo.args_quality_high Demo.world0).2 = dirs Demo.world0
  /\ heap (run Demo.demo Demo.args_quality_high Demo.world0).2 = heap Demo.world0.
Proof.
  split; [reflexivity|]. split; [lia|].
  apply (run_quality_rejected Demo.demo Demo.args_quality_high 96 Demo.world0);
    [reflexivity | lia | lia].
Defined.

Lemma smart_without_images_is_noop_witness :
  heap Demo.world_text !! 0%nat = Some Demo.text_doc
  /\ image_refs Demo.text_doc = []
  /\ (compress_smart Demo.demo 0 40 Demo.world_text).1 = Return 0%nat
  /\ heap (compress_smart Demo.demo 0 40 Demo.world_text).2 = heap Demo.world_text.
Proof.
  split; [reflexivity|]. split; [reflexivity|].
  apply (smart_without_images_is_noop Demo.demo 0 40 Demo.world_text Demo.text_doc);
    reflexivity.
Defined.

Lemma smart_does_nothing_when_replacement_fails_witness :
  heap Demo.world1 !! 0%nat = Some Demo.sample_doc
  /\ is_closed Demo.sample_doc = false
  /\ (compress_smart Demo.demo_no_update 0 40 Demo.world1).1 = Return 0%nat
  /\ last (stdout (compress_smart Demo.demo_no_update 0 40 Demo.world1).2)
     = Some (InfoRecompressed 0 (length (image_refs Demo.sample_doc)))
  /\ heap (compress_smart Demo.demo_no_update 0 40 Demo.world1).2 = heap Demo.world1.
Proof.
  split; [reflexivity|]. split; [reflexivity|].
  apply (smart_does_nothing_when_replacement_fails Demo.demo_no_update 0 40
           Demo.world1 Demo.sample_doc); [reflexivity | reflexivity |].
  intros d' x data Hdone. exact Hdone.
Defined.

Lemma aggressive_output_is_pictures_witness :
  heap Demo.world1 !! 0%nat = Some Demo.sample_doc
  /\ compress_aggressive Demo.demo 0 40 Demo.world1
     = (Return 1%nat, (compress_aggressive Demo.demo 0 40 Demo.world1).2)
  /\ exists dout : Document,
       heap (compress_aggressive Demo.demo 0 40 Demo.world1).2 !! 1%nat = Some dout
       /\ forall (i : nat) (p : Page),
            pages Demo.sample_doc !! i = Some p ->
            exists (p' : Page) (x : Z) (stream : bytes),
              pages dout !! i = Some p'
              /\ contents p' = []
              /\ images p' = [x]
              /\ rasterized Demo.demo Demo.sample_doc 40 p = Done stream
              /\ objects dout !! x = Some stream.
Proof.
  split; [reflexivity|]. split; [vm_compute; reflexivity|].
  apply (aggressive_output_is_pictures Demo.demo 0 40 Demo.world1
           (compress_aggressive Demo.demo 0 40 Demo.world1).2 Demo.sample_doc 1);
    [reflexivity | reflexivity | vm_compute; reflexivity].
Defined.

Lemma aggressive_allocates_one_document_witness :
  heap Demo.world_blank !! 0%nat = Some Demo.blank_doc
  /\ (compress_aggressive Demo.demo 0 40 Demo.world_blank).1
     = Raise (Exception "cannot render page")
  /\ exists dout : Document,
       heap (compress_aggressive Demo.demo 0 40 Demo.world_blank).2
       = <[fresh (dom (heap Demo.world_blank)) := dout]> (heap Demo.world_blank)
       /\ (fresh (dom (heap Demo.world_blank)) ∉ dom (heap Demo.world_blank))
       /\ is_closed dout = false
       /\ heap (compress_aggressive Demo.demo 0 40 Demo.world_blank).2 !! 0%nat
          = Some Demo.blank_doc.
Proof.
  split; [reflexivity|]. split; [vm_compute; reflexivity|].
  apply (aggressive_allocates_one_document Demo.demo 0 40 Demo.world_blank Demo.blank_doc);
    reflexivity.
Defined.

Lemma reduction_percent_sign_witness :
  0 < 8 /\ 0 <= 12
  /\ (reduction_percent (size_mb 12) (size_mb 8) <= 100)%Q
  /\ (12 <= 8 <-> (0 <= reduction_percent (size_mb 12) (size_mb 8))%Q)
  /\ (8 < 12 <-> (reduction_percent (size_mb 12) (size_mb 8) < 0)%Q).
Proof.
  split; [lia|]. split; [lia|]. apply (reduction_percent_sign 12 8); lia.
Defined.

Lemma failed_report_leaves_no_output_witness :
  (false = false \/ files Demo.world0 !! "large"%string = None)
  /\ exists w' : World,
       main_report false "large" (size_mb 8) Demo.world0 = (Return tt, w')
       /\ stdout w' = stdout Demo.world0 ++ [ReportFailed]
       /\ files w' !! "large"%string = None
       /\ forall p : string, p <> "large"%string -> files w' !! p = files Demo.world0 !! p.
Proof.
  split; [by left|].
  apply (failed_report_leaves_no_output false "large" (size_mb 8) Demo.world0);
    [by left | apply not_elem_of_empty].
Defined.

Lemma aggressive_success_closes_output_witness :
  mode Demo.args_aggressive = Aggressive
  /\ heap Demo.world1 !! 0%nat = Some Demo.sample_doc
  /\ aggressive_pass Demo.demo Demo.sample_doc 40 (pages Demo.sample_doc)
       (mkDocument [] ∅ false) = Done Demo.sample_raster
  /\ pdf_write Demo.demo Demo.sample_raster = Saved [Byte.x25; Byte.x50; Byte.x50]
  /\ exists w' : World,
       main_process Demo.demo Demo.args_aggressive 0 40 "out.pdf" Demo.world1
       = (Return tt, w')
       /\ files w' = <["out.pdf"%string := [Byte.x25; Byte.x50; Byte.x50]]> (files Demo.world1)
       /\ heap w' = <[fresh (dom (heap Demo.world1)) :=
                       mkDocument (pages Demo.sample_raster) (objects Demo.sample_raster) true]>
                      (heap Demo.world1).
Proof.
  split; [reflexivity|]. split; [reflexivity|]. split; [vm_compute; reflexivity|].
  split; [vm_compute; reflexivity|].
  apply (aggressive_success_closes_output Demo.demo Demo.args_aggressive 0 40 "out.pdf"
           Demo.world1 Demo.sample_doc Demo.sample_raster
           [Byte.x25; Byte.x50; Byte.x50]);
    [reflexivity | reflexivity | reflexivity | vm_compute; reflexivity
     | vm_compute; reflexivity].
Defined.

Lemma failed_dependency_stops_build_witness :
  (Build.install_dependencies Build.pip_without_pillow
     (Build.build_print Build.BuildStarted Build.checkout)).1 = Build.Returned false
  /\ Build.build_status Build.pip_without_pillow Build.checkout = 1
  /\ (Build.build_main Build.pip_without_pillow Build.checkout).2
     = (Build.install_dependencies Build.pip_without_pillow
          (Build.build_print Build.BuildStarted Build.checkout)).2
  /\ exists n : nat,
       Build.calls (Build.build_main Build.pip_without_pillow Build.checkout).2
       = Build.calls Build.checkout
           ++ map (Build.pip_install Build.pip_without_pillow)
                  (take n Build.required_packages).
Proof.
  split; [reflexivity|].
  apply (failed_dependency_stops_build Build.pip_without_pillow Build.checkout).
  reflexivity.
Defined.

Lemma build_failure_exits_zero_witness :
  (Build.install_dependencies Build.failing_pyinstaller
     (Build.build_print Build.BuildStarted Build.checkout)).1 = Build.Returned true
  /\ Build.build_status Build.failing_pyinstaller Build.checkout = 0
  /\ last (Build.printed (Build.build_main Build.failing_pyinstaller Build.checkout).2)
     = Some Build.BuildFinished.
Proof.
  split; [reflexivity|].
  apply (build_failure_exits_zero Build.failing_pyinstaller Build.checkout).
  reflexivity.
Defined.

Lemma install_stops_at_first_failure_witness :
  Build.required_packages = ["PyMuPDF"%string] ++ "Pillow"%string :: ["pyinstaller"%string]
  /\ (Build.install_dependencies Build.pip_without_pillow Build.checkout).1
     = Build.Returned false
  /\ Build.calls (Build.install_dependencies Build.pip_without_pillow Build.checkout).2
     = Build.calls Build.checkout
         ++ map (Build.pip_install Build.pip_without_pillow)
                (["PyMuPDF"%string] ++ ["Pillow"%string])
  /\ last (Build.printed (Build.install_dependencies Build.pip_without_pillow
                            Build.checkout).2)
     = Some (Build.FailedToInstall "Pillow").
Proof.
  split; [reflexivity|].
  apply (install_stops_at_first_failure Build.pip_without_pillow Build.checkout
           ["PyMuPDF"%string] ["pyinstaller"%string] "Pillow" 1).
  - reflexivity.
  - intros p ps Hp. apply list_elem_of_singleton in Hp. rewrite Hp. reflexivity.
  - intros ps. reflexivity.
Defined.
